(** * Behaviour detector of the clickstream template

    A shallow embedding of [Detect User Behaviour/behaviour_detector.py]:
    the per-user automaton that recognises "clothing, shoes, other clothing"
    inside a time window and records a special-offer recipient.

    Conventions of the embedding.
    - A row of the received dataframe is a record; the two columns the code
      tests for presence ([gender], [age]) are optional, the others are not.
      A column that is present holds a value of its type (a string, an
      integer); cells padded with NaN are not modelled.
    - A user's dict state is a record of optional entries, one per key the
      code ever stores ("offer", "state", "rows"); the fresh dict handed out
      for an unseen user has none of them.
    - The state store of the stream consumer is a finite map from user ids to
      dict states.  A handle returned by [get_dict_state] is mutated in place
      by the code; here the mutated dict is written back under its key.
    - Python exceptions ([KeyError], [IndexError]) are results [Raise e].
    - Timestamps and ages are Python integers, hence [Z].  The window bound
      [window_minutes * 60 * 1e9] is a float in the source; it is an integer
      value, exactly representable for every window below 2^53 ns (about 104
      days), and Python compares an int with a float exactly, so the bound is
      kept as the integer [window_minutes * 60 * 10^9].
    - [time.time()] is an oracle [clock] indexed by the number of readings
      made so far; the logger calls are collected in a trace. *)

From Stdlib Require Import ZArith String List Bool Lia.
From stdpp Require Import base option list strings gmap.

Local Open Scope string_scope.
Local Open Scope list_scope.
Local Open Scope Z_scope.

(** ** Exceptions and results *)

Inductive PyError : Type :=
| KeyError (key : string)
| IndexError.

Inductive res (A : Type) : Type :=
| Ok (a : A)
| Raise (e : PyError).

Arguments Ok {A} a.
Arguments Raise {A} e.

#[global] Instance res_ret : MRet res := fun A a => Ok a.
#[global] Instance res_bind : MBind res := fun A B f m =>
  match m with
  | Ok a => f a
  | Raise e => Raise e
  end.

(** Python's short-circuit [and] / [or] on operands that may raise. *)
Definition py_and (a b : res bool) : res bool :=
  x ← a; if (x : bool) then b else Ok false.

Definition py_or (a b : res bool) : res bool :=
  x ← a; if (x : bool) then Ok true else b.

(** ** Rows of the dataframe *)

Record Row : Type := mkRow {
  timestamp : Z;
  userId : string;
  category : string;
  age : option Z;
  gender : option string;
  productId : string
}.

(** [row["gender"]] and [row["age"]]: item access on a column that may be
    missing. *)
Definition row_gender (row : Row) : res string :=
  match gender row with
  | Some g => Ok g
  | None => Raise (KeyError "gender")
  end.

Definition row_age (row : Row) : res Z :=
  match age row with
  | Some a => Ok a
  | None => Raise (KeyError "age")
  end.

(** ** The dict state of one user *)

Record UserState : Type := mkState {
  st_offer : option string;
  st_state : option string;
  st_rows : option (list Row)
}.

(** The dict of a user seen for the first time. *)
Definition empty_state : UserState := mkState None None None.

Definition get_offer (us : UserState) : res string :=
  match st_offer us with
  | Some o => Ok o
  | None => Raise (KeyError "offer")
  end.

Definition get_state (us : UserState) : res string :=
  match st_state us with
  | Some s => Ok s
  | None => Raise (KeyError "state")
  end.

Definition get_rows (us : UserState) : res (list Row) :=
  match st_rows us with
  | Some rs => Ok rs
  | None => Raise (KeyError "rows")
  end.

Definition set_offer (o : string) (us : UserState) : UserState :=
  mkState (Some o) (st_state us) (st_rows us).

Definition set_state (s : string) (us : UserState) : UserState :=
  mkState (st_offer us) (Some s) (st_rows us).

Definition set_rows (rs : list Row) (us : UserState) : UserState :=
  mkState (st_offer us) (st_state us) (Some rs).

(** [l[0]] and [l[-1]] on a Python list. *)
Definition py_first (rs : list Row) : res Row :=
  match rs !! 0%nat with
  | Some r => Ok r
  | None => Raise IndexError
  end.

Definition py_last (rs : list Row) : res Row :=
  match last rs with
  | Some r => Ok r
  | None => Raise IndexError
  end.

(** [current_state["rows"][0]]. *)
Definition first_row (current_state : UserState) : res Row :=
  rs ← get_rows current_state; py_first rs.

(** ** Configuration *)

(** [window_minutes] at import time: 30 unless the environment sets it. *)
Definition window_minutes_of_env (env : option Z) : Z :=
  match env with
  | None => 30
  | Some n => n
  end.

(** ** The transition table *)

Record Transition : Type := mkTransition {
  condition : Row -> UserState -> res bool;
  next_state : string
}.

Definition category_is (c : string) (row : Row) : res bool :=
  Ok (String.eqb (category row) c).

Definition demographic (g : string) (lo hi : Z) (row : Row) : res bool :=
  py_and (x ← row_gender row; Ok (String.eqb x g))
         (a ← row_age row; Ok ((lo <=? a) && (a <=? hi))).

Definition init_to_clothes : Transition :=
  mkTransition
    (fun row current_state =>
       py_and (category_is "clothing" row)
              (py_or (demographic "M" 35 45 row) (demographic "F" 25 35 row)))
    "clothes_visited".

Definition clothes_to_shoes : Transition :=
  mkTransition (fun row current_state => category_is "shoes" row)
               "shoes_visited".

Definition clothes_to_clothes : Transition :=
  mkTransition (fun row current_state => category_is "clothing" row)
               "clothes_visited".

Definition shoes_to_offer : Transition :=
  mkTransition
    (fun row current_state =>
       py_and (category_is "clothing" row)
              (r0 ← first_row current_state;
               Ok (negb (String.eqb (productId row) (productId r0)))))
    "offer".

Definition shoes_to_clothes : Transition :=
  mkTransition
    (fun row current_state =>
       py_and (category_is "clothing" row)
              (r0 ← first_row current_state;
               Ok (String.eqb (productId row) (productId r0))))
    "clothes_visited".

(** The class attribute [transitions], a dict literal, in its order. *)
Definition transitions : list (string * list Transition) :=
  [ ("init", [init_to_clothes]);
    ("clothes_visited", [clothes_to_shoes; clothes_to_clothes]);
    ("shoes_visited", [shoes_to_offer; shoes_to_clothes]) ].

Fixpoint dict_get {V : Type} (d : list (string * V)) (k : string) : res V :=
  match d with
  | [] => Raise (KeyError k)
  | (k', v) :: d' => if String.eqb k' k then Ok v else dict_get d' k
  end.

(** ** The trace of logger calls *)

Inductive Level : Type := DEBUG | INFO.

Inductive LogRecord : Type :=
| ProcessingFrame (user_id : string)
| NoGender (suffix : string)
| NoAge (suffix : string)
| GettingState (user_id : string)
| LoadedState (user_id : string) (took : Z)
| IgnoringRefresh (user_id : string)
| ApplyingTransitions (user_id : string)
| EnteredState (suffix state product cat : string)
| ResettingState (user_id : string)
| TriggeredOffer (suffix offer : string).

Definition level_of (m : LogRecord) : Level :=
  match m with
  | EnteredState _ _ _ _ | TriggeredOffer _ _ => INFO
  | _ => DEBUG
  end.

(** [user_id[-4:]] *)
Definition last4 (user_id : string) : string :=
  substring (String.length user_id - 4) 4 user_id.

(** ** The detector and the store it works on *)

Record Cfg : Type := mkCfg {
  store : gmap string UserState;
  special_offers_recipients : list (string * string);
  trace : list LogRecord;
  ticks : nat
}.

Definition initial_cfg : Cfg := mkCfg ∅ [] [] 0%nat.

Definition logger (m : LogRecord) (c : Cfg) : Cfg :=
  mkCfg (store c) (special_offers_recipients c) (trace c ++ [m]) (ticks c).

Definition get_dict_state (user_id : string) (c : Cfg) : UserState :=
  default empty_state (store c !! user_id).

Definition put_dict_state (user_id : string) (us : UserState) (c : Cfg) : Cfg :=
  mkCfg (<[user_id := us]> (store c)) (special_offers_recipients c)
        (trace c) (ticks c).

Definition append_recipient (e : string * string) (c : Cfg) : Cfg :=
  mkCfg (store c) (special_offers_recipients c ++ [e]) (trace c) (ticks c).


Definition clear_special_offers_recipients (c : Cfg) : Cfg :=
  mkCfg (store c) [] (trace c) (ticks c).

Section Detector.

(** The configured window, in minutes, and the wall clock. *)
Variable window_minutes : Z.
Variable clock : nat -> Z.

Definition time_time (c : Cfg) : Z * Cfg :=
  (clock (ticks c),
   mkCfg (store c) (special_offers_recipients c) (trace c) (S (ticks c))).

Definition window_ns : Z := window_minutes * 60 * 10 ^ 9.

Definition check_time_elapsed (row : Row) (current_state : UserState)
  : res bool :=
  rows ← get_rows current_state;
  if (length rows =? 0)%nat then Ok true
  else
    let timestamp_row := timestamp row in
    r0 ← py_first rows;
    let timestamp_first_interaction := timestamp r0 in
    let time_valid :=
      timestamp_row - timestamp_first_interaction <? window_ns in
    Ok time_valid.

(** The test of the loop:
    [transition["condition"](row, user_state) and check_time_elapsed(...)]. *)
Definition guard (transition : Transition) (row : Row)
    (user_state : UserState) : res bool :=
  py_and (condition transition row user_state)
         (check_time_elapsed row user_state).

(** The body of [for transition in self.transitions[...]]: the first rule
    whose condition and window check both hold is taken, the state is set,
    the row appended, and the loop left. *)
Fixpoint apply_transitions (rules : list Transition) (row : Row)
    (user_state : UserState) (c : Cfg) : res (bool * UserState * Cfg) :=
  match rules with
  | [] => Ok (false, user_state, c)
  | transition :: rules' =>
      fire ← guard transition row user_state;
      if (fire : bool) then
        let user_state := set_state (next_state transition) user_state in
        rows ← get_rows user_state;
        let user_state := set_rows (rows ++ [row]) user_state in
        st ← get_state user_state;
        let c := logger (EnteredState (last4 (userId row)) st
                                      (productId row) (category row)) c in
        Ok (true, user_state, c)
      else apply_transitions rules' row user_state c
  end.

(** [user_state["rows"] and user_state["rows"][-1]["productId"] == ...] *)
Definition is_page_refresh (row : Row) (user_state : UserState) : res bool :=
  rows ← get_rows user_state;
  match rows with
  | [] => Ok false
  | _ :: _ =>
      lst ← py_last rows;
      Ok (String.eqb (productId lst) (productId row))
  end.

(** The offer derived from the event's gender. *)
Definition offer_for (g : string) : string :=
  if String.eqb g "M" then "offer1" else "offer2".

(** Lines 96-102: the offer is written, then missing keys get defaults. *)
Definition initialize_state (g : string) (user_state : UserState)
  : UserState :=
  let user_state := set_offer (offer_for g) user_state in
  let user_state :=
    match st_state user_state with
    | Some _ => user_state
    | None => set_state "init" user_state
    end in
  match st_rows user_state with
  | Some _ => user_state
  | None => set_rows [] user_state
  end.

(** Lines 109-134, for a row that got past the refresh check.  The dict is
    the store's own object, so what is written to it is in the store. *)
Definition run_automaton (row : Row) (user_state : UserState) (c : Cfg)
  : res Cfg :=
  let user_id := userId row in
  let c := logger (ApplyingTransitions user_id) c in
  st ← get_state user_state;
  rules ← dict_get transitions st;
  '(transitioned, user_state, c) ← apply_transitions rules row user_state c;
  if negb transitioned then
    let c := logger (ResettingState user_id) c in
    let user_state := set_rows [] (set_state "init" user_state) in
    Ok (put_dict_state user_id user_state c)
  else
    st ← get_state user_state;
    if String.eqb st "offer" then
      o ← get_offer user_state;
      let c := logger (TriggeredOffer (last4 user_id) o) c in
      let user_state := set_rows [] (set_state "init" user_state) in
      o ← get_offer user_state;
      Ok (append_recipient (user_id, o) (put_dict_state user_id user_state c))
    else Ok (put_dict_state user_id user_state c).

(** Lines 89-93: the dict of the user is fetched, the fetch is timed. *)
Definition load_state (user_id : string) (c : Cfg) : UserState * Cfg :=
  let c := logger (GettingState user_id) c in
  let '(start, c) := time_time c in
  let user_state := get_dict_state user_id c in
  let '(stop, c) := time_time c in
  (user_state, logger (LoadedState user_id (stop - start)) c).

(** One iteration of the loop over the rows of the dataframe. *)
Definition process_row (row : Row) (c : Cfg) : res Cfg :=
  let user_id := userId row in
  let c := logger (ProcessingFrame user_id) c in
  if negb (bool_decide (is_Some (gender row))) then
    Ok (logger (NoGender (last4 user_id)) c)
  else if negb (bool_decide (is_Some (age row))) then
    Ok (logger (NoAge (last4 user_id)) c)
  else
    let '(user_state, c) := load_state user_id c in
    g ← row_gender row;
    let user_state := initialize_state g user_state in
    refresh ← is_page_refresh row user_state;
    if (refresh : bool) then
      let c := logger (IgnoringRefresh user_id) c in
      Ok (put_dict_state user_id user_state c)
    else run_automaton row user_state c.

Fixpoint process_dataframe (received_df : list Row) (c : Cfg) : res Cfg :=
  match received_df with
  | [] => Ok c
  | row :: rest => c' ← process_row row c; process_dataframe rest c'
  end.

(** Configurations the detector can be in between two calls: it starts with
    an empty store and no recipient, receives dataframes, and has its
    recipients drained. *)
Inductive reachable : Cfg -> Prop :=
| reach_start : reachable initial_cfg
| reach_frame c df c' :
    reachable c -> process_dataframe df c = Ok c' -> reachable c'
| reach_drain c :
    reachable c -> reachable (clear_special_offers_recipients c).

(** *** Vocabulary of the statements *)

(** An event that gets past the filter on missing attributes. *)
Definition eligible (row : Row) : Prop :=
  is_Some (gender row) /\ is_Some (age row).

(** The rule the loop takes, if any: the first one whose guard holds. *)
Fixpoint matched_transition (rules : list Transition) (row : Row)
    (user_state : UserState) : res (option Transition) :=
  match rules with
  | [] => Ok None
  | transition :: rules' =>
      fire ← guard transition row user_state;
      if (fire : bool) then Ok (Some transition)
      else matched_transition rules' row user_state
  end.

End Detector.

(** What the next event reads from a dict: a missing "state" is "init" and
    a missing "rows" is the empty list (lines 98-102). *)
Definition rest_state (us : UserState) : string :=
  default "init" (st_state us).

Definition rest_rows (us : UserState) : list Row :=
  default [] (st_rows us).

(** The keys of the transition table. *)
Definition known_state (s : string) : Prop :=
  s = "init" \/ s = "clothes_visited" \/ s = "shoes_visited".

(** The dict a reset leaves behind. *)
Definition reset_state (o : string) : UserState :=
  mkState (Some o) (Some "init") (Some []).

(** The part of a configuration that the clock and the logger do not
    touch. *)
Definition observable (c : Cfg)
  : gmap string UserState * list (string * string) :=
  (store c, special_offers_recipients c).

(** A stored dict is complete, and its rows are empty exactly in "init". *)
Definition session_ok (us : UserState) : Prop :=
  exists o st rs,
    us = mkState (Some o) (Some st) (Some rs) /\
    known_state st /\ (rs = [] <-> st = "init").

Definition store_ok (c : Cfg) : Prop :=
  map_Forall (fun _ us => session_ok us) (store c).

(** The trace record of a rule being taken. *)
Definition entered (row : Row) (t : Transition) : LogRecord :=
  EnteredState (last4 (userId row)) (next_state t)
               (productId row) (category row).

(** Two runs agree when they raise the same exception or end with the same
    store and the same recipients. *)
Definition agree (r1 r2 : res Cfg) : Prop :=
  match r1, r2 with
  | Ok c1, Ok c2 => observable c1 = observable c2
  | Raise e1, Raise e2 => e1 = e2
  | _, _ => False
  end.

(** ** Concrete events and a clock to run the detector on *)

Definition click (t : Z) (uid cat pid g : string) (a : Z) : Row :=
  mkRow t uid cat (Some a) (Some g) pid.

Definition still_clock : nat -> Z := fun _ => 0.

(** The events of scenario A for user "u1", one minute apart. *)
Definition view_clothes : Row := click 0 "u1" "clothing" "P1" "M" 40.
Definition view_shoes : Row := click 60000000000 "u1" "shoes" "P2" "M" 40.
Definition view_other_clothes : Row :=
  click 120000000000 "u1" "clothing" "P3" "M" 40.

(** A store in which "u1" has viewed clothing, then shoes. *)
Definition shoes_cfg : Cfg :=
  mkCfg {[ "u1" := mkState (Some "offer1") (Some "shoes_visited")
                           (Some [view_clothes; view_shoes]) ]}
        [] [] 0%nat.

(** A store in which "u1", then recorded as female, has viewed clothing. *)
Definition clothes_cfg : Cfg :=
  mkCfg {[ "u1" := mkState (Some "offer2") (Some "clothes_visited")
                           (Some [click 0 "u1" "clothing" "P1" "F" 30]) ]}
        [] [] 0%nat.

(** The configuration after a run under the default window, or the starting
    one if the run raised. *)
Definition run_from (c : Cfg) (df : list Row) : Cfg :=
  match process_dataframe 30 still_clock df c with
  | Ok c' => c'
  | Raise _ => c
  end.

(** ** Vocabulary of the session invariants *)

(** The test of the first rule on gender and age. *)
Definition qualifies (row : Row) : Prop :=
  (gender row = Some "M" /\ exists a, age row = Some a /\ 35 <= a <= 45) \/
  (gender row = Some "F" /\ exists a, age row = Some a /\ 25 <= a <= 35).

(** No two neighbours of a list of rows carry the same product. *)
Fixpoint no_stutter (rs : list Row) : Prop :=
  match rs with
  | r :: ((r' :: _) as rs') => productId r <> productId r' /\ no_stutter rs'
  | _ => True
  end.

(** What holds of the dict stored for user [u]: it is complete, its offer is
    one of the two, its rows are events of [u] that had gender and age, the
    first is a qualifying clothing view, the later ones lie less than a
    window after the first, neighbours differ in product, and the state is
    read off the category of the last row. *)
Definition session_shape (wm : Z) (u : string) (us : UserState) : Prop :=
  exists o st rs,
    us = mkState (Some o) (Some st) (Some rs) /\
    (o = "offer1" \/ o = "offer2") /\
    Forall (fun r => userId r = u /\ eligible r) rs /\
    no_stutter rs /\
    match rs with
    | [] => st = "init"
    | r0 :: rs' =>
        category r0 = "clothing" /\ qualifies r0 /\
        Forall (fun r => timestamp r - timestamp r0 < window_ns wm) rs' /\
        exists lst, last rs = Some lst /\
          ((st = "clothes_visited" /\ category lst = "clothing") \/
           (st = "shoes_visited" /\ category lst = "shoes" /\
            (2 <= length rs)%nat))
    end.

Definition store_shape (wm : Z) (c : Cfg) : Prop :=
  map_Forall (fun u us => session_shape wm u us) (store c).

(** The recipients of user [u], and the events of [u] in a dataframe. *)
Definition for_user (u : string) (l : list (string * string))
  : list (string * string) :=
  filter (fun e => e.1 = u) l.

Definition events_of (u : string) (df : list Row) : list Row :=
  filter (fun r => userId r = u) df.

(** The offer triggers recorded in a trace, as (suffix, offer). *)
Fixpoint triggers (tr : list LogRecord) : list (string * string) :=
  match tr with
  | [] => []
  | TriggeredOffer s o :: tr' => (s, o) :: triggers tr'
  | _ :: tr' => triggers tr'
  end.

(** ** Further concrete configurations *)

(** Scenario A with an event of another user in between. *)
Definition two_users_df : list Row :=
  [view_clothes; click 30000000000 "u2" "clothing" "P7" "F" 30;
   view_shoes; view_other_clothes].

(** Stores the detector never produces: a state outside the table, and
    [shoes_visited] without rows. *)
Definition offer_state_cfg : Cfg :=
  mkCfg {[ "u1" := mkState (Some "offer1") (Some "offer") (Some []) ]}
        [] [] 0%nat.

Definition rowless_shoes_cfg : Cfg :=
  mkCfg {[ "u1" := mkState (Some "offer1") (Some "shoes_visited") (Some []) ]}
        [] [] 0%nat.

(** * Properties *)

(** ** The logger and the clock leave store and recipients alone *)

Lemma observable_logger m c : observable (logger m c) = observable c.
Proof. reflexivity. Qed.

Lemma get_dict_state_store uid c c' :
  store c = store c' -> get_dict_state uid c = get_dict_state uid c'.
Proof. unfold get_dict_state. now intros ->. Qed.

(** ** The dict after initialisation *)

Lemma initialize_state_shape g us :
  initialize_state g us =
  mkState (Some (offer_for g)) (Some (rest_state us)) (Some (rest_rows us)).
Proof. destruct us as [o [s|] [rs|]]; reflexivity. Qed.

(** ** The window check and the refresh check never raise on a dict that
    has its rows *)

Lemma check_time_elapsed_total wm row o st rs :
  exists b, check_time_elapsed wm row (mkState o st (Some rs)) = Ok b.
Proof.
  unfold check_time_elapsed. destruct rs as [|r0 rs]; cbn; eauto.
Qed.

Lemma check_time_elapsed_cons wm row o st r0 rs :
  check_time_elapsed wm row (mkState o st (Some (r0 :: rs))) =
  Ok (timestamp row - timestamp r0 <? window_ns wm).
Proof. reflexivity. Qed.

Lemma is_page_refresh_nil row o st :
  is_page_refresh row (mkState o st (Some [])) = Ok false.
Proof. reflexivity. Qed.

Lemma is_page_refresh_last row o st rs lst :
  last rs = Some lst ->
  is_page_refresh row (mkState o st (Some rs)) =
  Ok (String.eqb (productId lst) (productId row)).
Proof.
  intros Hl. unfold is_page_refresh. cbn.
  destruct rs as [|r rs]; [discriminate|].
  unfold py_last. rewrite Hl. reflexivity.
Qed.

Lemma last_is_Some {A} (x : A) l : exists y, last (x :: l) = Some y.
Proof.
  revert x. induction l as [|z l IH]; intros x; [eauto|].
  destruct (IH z) as [y Hy]. exists y. exact Hy.
Qed.

Lemma is_page_refresh_total row o st rs :
  exists b, is_page_refresh row (mkState o st (Some rs)) = Ok b.
Proof.
  destruct rs as [|r rs]; [eexists; reflexivity|].
  destruct (last_is_Some r rs) as [y Hy].
  erewrite is_page_refresh_last by exact Hy. eauto.
Qed.

(** ** The loop takes the first rule whose guard holds *)

Lemma apply_transitions_matched wm rules row o st rs c :
  apply_transitions wm rules row (mkState (Some o) (Some st) (Some rs)) c =
  match matched_transition wm rules row (mkState (Some o) (Some st) (Some rs))
  with
  | Ok None => Ok (false, mkState (Some o) (Some st) (Some rs), c)
  | Ok (Some t) =>
      Ok (true,
          mkState (Some o) (Some (next_state t)) (Some (rs ++ [row])),
          logger (EnteredState (last4 (userId row)) (next_state t)
                               (productId row) (category row)) c)
  | Raise e => Raise e
  end.
Proof.
  induction rules as [|t rules IH]; [reflexivity|].
  cbn [apply_transitions matched_transition].
  destruct (guard wm t row _) as [[|]|e]; cbn; [reflexivity|exact IH|reflexivity].
Qed.

Lemma matched_transition_In wm rules row us t :
  matched_transition wm rules row us = Ok (Some t) -> In t rules.
Proof.
  induction rules as [|t' rules IH]; cbn; [discriminate|].
  destruct (guard wm t' row us) as [[|]|e]; cbn; intros H.
  - left. congruence.
  - right. auto.
  - discriminate.
Qed.

Lemma matched_transition_none wm rules row us :
  Forall (fun t => guard wm t row us = Ok false) rules ->
  matched_transition wm rules row us = Ok None.
Proof.
  induction 1 as [|t rules Ht _ IH]; [reflexivity|].
  cbn. rewrite Ht. exact IH.
Qed.

(** ** One event, case by case *)

Lemma run_automaton_cases wm row o st rs c :
  run_automaton wm row (mkState (Some o) (Some st) (Some rs)) c =
  match dict_get transitions st with
  | Raise e => Raise e
  | Ok rules =>
      let c0 := logger (ApplyingTransitions (userId row)) c in
      match matched_transition wm rules row
              (mkState (Some o) (Some st) (Some rs)) with
      | Raise e => Raise e
      | Ok None =>
          Ok (put_dict_state (userId row) (reset_state o)
                (logger (ResettingState (userId row)) c0))
      | Ok (Some t) =>
          if String.eqb (next_state t) "offer" then
            Ok (append_recipient (userId row, o)
                  (put_dict_state (userId row) (reset_state o)
                     (logger (TriggeredOffer (last4 (userId row)) o)
                        (logger (entered row t) c0))))
          else
            Ok (put_dict_state (userId row)
                  (mkState (Some o) (Some (next_state t)) (Some (rs ++ [row])))
                  (logger (entered row t) c0))
      end
  end.
Proof.
  unfold run_automaton. cbn [get_state st_state mbind res_bind].
  destruct (dict_get transitions st) as [rules|e]; cbn; [|reflexivity].
  rewrite apply_transitions_matched.
  destruct (matched_transition wm rules row _) as [[t|]|e]; cbn;
    [|reflexivity|reflexivity].
  destruct (String.eqb (next_state t) "offer"); reflexivity.
Qed.

Lemma process_row_eligible wm clock row c g a :
  gender row = Some g -> age row = Some a ->
  process_row wm clock row c =
  let uid := userId row in
  let us := initialize_state g (get_dict_state uid c) in
  let c1 := (load_state clock uid (logger (ProcessingFrame uid) c)).2 in
  match is_page_refresh row us with
  | Raise e => Raise e
  | Ok true => Ok (put_dict_state uid us (logger (IgnoringRefresh uid) c1))
  | Ok false => run_automaton wm row us c1
  end.
Proof.
  intros Hg Ha. unfold process_row, row_gender. rewrite Hg, Ha. cbn.
  destruct (is_page_refresh row _) as [[|]|e]; reflexivity.
Qed.

(** ** The invariant of the store *)

Lemma known_state_rules st :
  known_state st -> exists rules, dict_get transitions st = Ok rules.
Proof. intros [-> | [-> | ->]]; eexists; reflexivity. Qed.

Lemma session_ok_reset o : session_ok (reset_state o).
Proof.
  exists o, "init", []. split; [reflexivity|]. split; [left; reflexivity|].
  split; reflexivity.
Qed.

Lemma session_ok_visited o st rs row :
  st = "clothes_visited" \/ st = "shoes_visited" ->
  session_ok (mkState (Some o) (Some st) (Some (rs ++ [row]))).
Proof.
  intros H. exists o, st, (rs ++ [row]). split; [reflexivity|]. split.
  - destruct H as [-> | ->]; [right; left|right; right]; reflexivity.
  - split.
    + intros E. apply app_eq_nil in E. destruct E; discriminate.
    + intros ->. destruct H; discriminate.
Qed.

Lemma rest_view_ok us :
  session_ok us \/ us = empty_state ->
  known_state (rest_state us) /\
  (rest_rows us = [] <-> rest_state us = "init").
Proof.
  intros [(o & st & rs & -> & Hk & Hi)| ->]; cbn.
  - split; assumption.
  - split; [left; reflexivity|split; reflexivity].
Qed.

Lemma get_dict_state_ok c uid :
  store_ok c ->
  session_ok (get_dict_state uid c) \/ get_dict_state uid c = empty_state.
Proof.
  intros Hc. unfold get_dict_state.
  destruct (store c !! uid) as [us|] eqn:E; cbn; [left|right; reflexivity].
  exact (Hc uid us E).
Qed.

Lemma store_ok_put uid us c :
  store_ok c -> session_ok us -> store_ok (put_dict_state uid us c).
Proof.
  intros Hc Hu. unfold store_ok, put_dict_state. cbn.
  apply map_Forall_insert_2; assumption.
Qed.

(** ** No rule raises on a sound session *)

Lemma guard_total_init wm row o rs g a :
  gender row = Some g -> age row = Some a ->
  exists b, guard wm init_to_clothes row
              (mkState (Some o) (Some "init") (Some rs)) = Ok b.
Proof.
  intros Hg Ha.
  destruct (check_time_elapsed_total wm row (Some o) (Some "init") rs)
    as [b Hb].
  unfold guard. rewrite Hb. cbn. unfold category_is, demographic, row_gender,
    row_age. rewrite Hg, Ha. cbn.
  destruct (String.eqb (category row) "clothing"); cbn; [|eauto].
  destruct (String.eqb g "M"); cbn.
  - destruct ((35 <=? a) && (a <=? 45)); cbn; [eauto|].
    destruct (String.eqb g "F"); cbn; [|eauto].
    destruct ((25 <=? a) && (a <=? 35)); cbn; eauto.
  - destruct (String.eqb g "F"); cbn; [|eauto].
    destruct ((25 <=? a) && (a <=? 35)); cbn; eauto.
Qed.

Lemma guard_total_category wm row us next c :
  is_Some (st_rows us) ->
  exists b, guard wm (mkTransition (fun row _ => category_is c row) next)
              row us = Ok b.
Proof.
  intros [rs Hrs]. destruct us as [o st r]. cbn in Hrs. subst r.
  destruct (check_time_elapsed_total wm row o st rs) as [b Hb].
  unfold guard. rewrite Hb. cbn.
  destruct (String.eqb (category row) c); cbn; eauto.
Qed.

Lemma guard_total_shoes wm row o st r0 rs t :
  t = shoes_to_offer \/ t = shoes_to_clothes ->
  exists b, guard wm t row (mkState o st (Some (r0 :: rs))) = Ok b.
Proof.
  intros Ht. unfold guard. rewrite check_time_elapsed_cons.
  destruct Ht as [-> | ->]; cbn; unfold category_is;
    destruct (String.eqb (category row) "clothing"); cbn; eauto;
    destruct (String.eqb (productId row) (productId r0)); cbn; eauto.
Qed.

Lemma matched_transition_total wm row o st rs rules g a :
  gender row = Some g -> age row = Some a ->
  known_state st -> (rs = [] <-> st = "init") ->
  dict_get transitions st = Ok rules ->
  exists m, matched_transition wm rules row
              (mkState (Some o) (Some st) (Some rs)) = Ok m.
Proof.
  intros Hg Ha Hk Hi Hr.
  destruct Hk as [-> | [-> | ->]]; cbn in Hr; injection Hr as <-.
  - destruct (guard_total_init wm row o rs g a Hg Ha) as [b Hb].
    cbn [matched_transition]. rewrite Hb. destruct b; cbn; eauto.
  - cbn [matched_transition].
    destruct (guard_total_category wm row
                (mkState (Some o) (Some "clothes_visited") (Some rs))
                "shoes_visited" "shoes") as [b1 Hb1]; [cbn; eauto|].
    destruct (guard_total_category wm row
                (mkState (Some o) (Some "clothes_visited") (Some rs))
                "clothes_visited" "clothing") as [b2 Hb2]; [cbn; eauto|].
    unfold clothes_to_shoes, clothes_to_clothes.
    rewrite Hb1. destruct b1; cbn [mbind res_bind matched_transition]; [eauto|].
    rewrite Hb2. destruct b2; cbn; eauto.
  - destruct rs as [|r0 rs]; [destruct Hi as [Hi _]; discriminate Hi; reflexivity|].
    destruct (guard_total_shoes wm row (Some o) (Some "shoes_visited") r0 rs
                shoes_to_offer) as [b1 Hb1]; [left; reflexivity|].
    destruct (guard_total_shoes wm row (Some o) (Some "shoes_visited") r0 rs
                shoes_to_clothes) as [b2 Hb2]; [right; reflexivity|].
    cbn [matched_transition]. rewrite Hb1. destruct b1; cbn [mbind res_bind matched_transition]; [eauto|].
    rewrite Hb2. destruct b2; cbn; eauto.
Qed.

Lemma rules_targets st rules t :
  dict_get transitions st = Ok rules -> In t rules ->
  next_state t = "clothes_visited" \/ next_state t = "shoes_visited" \/
  next_state t = "offer".
Proof.
  unfold transitions. cbn [dict_get].
  destruct (String.eqb "init" st).
  { intros [= <-] [<-|[]]. left; reflexivity. }
  destruct (String.eqb "clothes_visited" st).
  { intros [= <-] [<-|[<-|[]]]; [right; left|left]; reflexivity. }
  destruct (String.eqb "shoes_visited" st).
  { intros [= <-] [<-|[<-|[]]]; [right; right|left]; reflexivity. }
  discriminate.
Qed.

(** ** An event never raises on a sound store, and keeps it sound *)

Lemma process_row_ok wm clock row c :
  store_ok c ->
  exists c', process_row wm clock row c = Ok c' /\ store_ok c'.
Proof.
  intros Hc.
  destruct (gender row) as [g|] eqn:Hg;
    [|unfold process_row; rewrite Hg; cbn; eexists; split;
      [reflexivity|exact Hc]].
  destruct (age row) as [a|] eqn:Ha;
    [|unfold process_row; rewrite Hg, Ha; cbn; eexists; split;
      [reflexivity|exact Hc]].
  rewrite (process_row_eligible wm clock row c g a Hg Ha). cbn zeta.
  rewrite initialize_state_shape.
  destruct (rest_view_ok _ (get_dict_state_ok c (userId row) Hc))
    as [Hk Hi].
  set (us0 := get_dict_state (userId row) c) in *.
  set (c1 := (load_state _ _ _).2).
  assert (Hc1 : store_ok c1) by exact Hc.
  destruct (is_page_refresh_total row (Some (offer_for g))
              (Some (rest_state us0)) (rest_rows us0)) as [b Hb].
  rewrite Hb. destruct b.
  - eexists; split; [reflexivity|].
    apply store_ok_put; [exact Hc1|].
    exists (offer_for g), (rest_state us0), (rest_rows us0). auto.
  - rewrite run_automaton_cases.
    destruct (known_state_rules _ Hk) as [rules Hr]. rewrite Hr. cbn zeta.
    destruct (matched_transition_total wm row (offer_for g) _ _ rules g a
                Hg Ha Hk Hi Hr) as [m Hm].
    rewrite Hm. destruct m as [t|].
    + pose proof (rules_targets _ _ t Hr (matched_transition_In _ _ _ _ _ Hm))
        as Ht.
      destruct (String.eqb (next_state t) "offer") eqn:Eo.
      * eexists; split; [reflexivity|].
        apply (store_ok_put _ _ _ Hc1 (session_ok_reset _)).
      * eexists; split; [reflexivity|].
        apply store_ok_put; [exact Hc1|].
        apply session_ok_visited.
        destruct Ht as [Ht|[Ht|Ht]]; [left|right|]; try exact Ht.
        rewrite Ht in Eo. discriminate.
    + eexists; split; [reflexivity|].
      apply (store_ok_put _ _ _ Hc1 (session_ok_reset _)).
Qed.

Lemma process_dataframe_ok wm clock df : forall c,
  store_ok c ->
  exists c', process_dataframe wm clock df c = Ok c' /\ store_ok c'.
Proof.
  induction df as [|row df IH]; intros c Hc; cbn.
  - eauto.
  - destruct (process_row_ok wm clock row c Hc) as (c1 & E1 & H1).
    rewrite E1. cbn. apply IH, H1.
Qed.

Lemma reachable_store_ok wm clock c : reachable wm clock c -> store_ok c.
Proof.
  induction 1 as [|c df c' _ IH E|c _ IH].
  - apply map_Forall_empty.
  - destruct (process_dataframe_ok wm clock df c IH) as (c2 & E2 & H2).
    rewrite E in E2. injection E2 as <-. exact H2.
  - exact IH.
Qed.

(** ** What one event does to store and recipients *)



Lemma process_row_ineligible wm clock row c :
  gender row = None \/ age row = None ->
  exists c', process_row wm clock row c = Ok c' /\ observable c' = observable c.
Proof.
  intros H. unfold process_row.
  destruct (gender row) as [g|]; cbn.
  - destruct H as [H|H]; [discriminate|]. rewrite H. cbn.
    eexists; split; reflexivity.
  - eexists; split; reflexivity.
Qed.

Lemma process_row_refresh wm clock row c g a :
  gender row = Some g -> age row = Some a ->
  is_page_refresh row (initialize_state g (get_dict_state (userId row) c))
    = Ok true ->
  exists c', process_row wm clock row c = Ok c' /\
    observable c' =
      (<[userId row := initialize_state g (get_dict_state (userId row) c)]>
         (store c),
       special_offers_recipients c).
Proof.
  intros Hg Ha Hr. rewrite (process_row_eligible wm clock row c g a Hg Ha).
  cbn zeta. rewrite Hr. eexists; split; reflexivity.
Qed.

Lemma process_row_automaton wm clock row c g a rules m :
  gender row = Some g -> age row = Some a ->
  let us0 := get_dict_state (userId row) c in
  is_page_refresh row (initialize_state g us0) = Ok false ->
  dict_get transitions (rest_state us0) = Ok rules ->
  matched_transition wm rules row (initialize_state g us0) = Ok m ->
  exists c', process_row wm clock row c = Ok c' /\
    observable c' =
      match m with
      | None =>
          (<[userId row := reset_state (offer_for g)]> (store c),
           special_offers_recipients c)
      | Some t =>
          if String.eqb (next_state t) "offer" then
            (<[userId row := reset_state (offer_for g)]> (store c),
             special_offers_recipients c ++ [(userId row, offer_for g)])
          else
            (<[userId row :=
                 mkState (Some (offer_for g)) (Some (next_state t))
                         (Some (rest_rows us0 ++ [row]))]> (store c),
             special_offers_recipients c)
      end.
Proof.
  intros Hg Ha us0 Hr Hd Hm.
  rewrite (process_row_eligible wm clock row c g a Hg Ha). cbn zeta.
  fold us0. rewrite Hr. rewrite initialize_state_shape in *.
  rewrite run_automaton_cases, Hd. cbn zeta. rewrite Hm.
  destruct m as [t|]; [|eexists; split; reflexivity].
  destruct (String.eqb (next_state t) "offer"); eexists; split; reflexivity.
Qed.


(** ** Store and recipients do not depend on clock, trace or tick count *)

Lemma put_dict_state_observable uid us c c' :
  observable c = observable c' ->
  observable (put_dict_state uid us c) = observable (put_dict_state uid us c').
Proof. unfold observable. cbn. intros [= -> ->]. reflexivity. Qed.

Lemma append_recipient_observable e c c' :
  observable c = observable c' ->
  observable (append_recipient e c) = observable (append_recipient e c').
Proof. unfold observable. cbn. intros [= -> ->]. reflexivity. Qed.

Lemma run_automaton_agree wm row o st rs c c' :
  observable c = observable c' ->
  agree (run_automaton wm row (mkState (Some o) (Some st) (Some rs)) c)
        (run_automaton wm row (mkState (Some o) (Some st) (Some rs)) c').
Proof.
  intros H. rewrite !run_automaton_cases.
  destruct (dict_get transitions st) as [rules|e]; [|reflexivity].
  cbn zeta.
  destruct (matched_transition wm rules row _) as [[t|]|e]; [| |reflexivity].
  - destruct (String.eqb (next_state t) "offer"); cbn.
    + apply append_recipient_observable, put_dict_state_observable.
      rewrite !observable_logger. exact H.
    + apply put_dict_state_observable. rewrite !observable_logger. exact H.
  - cbn. apply put_dict_state_observable. rewrite !observable_logger. exact H.
Qed.

Lemma process_row_agree wm clock1 clock2 row c1 c2 :
  observable c1 = observable c2 ->
  agree (process_row wm clock1 row c1) (process_row wm clock2 row c2).
Proof.
  intros H.
  assert (Hs : store c1 = store c2) by (injection H; auto).
  destruct (gender row) as [g|] eqn:Hg.
  2:{ destruct (process_row_ineligible wm clock1 row c1 (or_introl Hg))
        as (a1 & -> & E1).
      destruct (process_row_ineligible wm clock2 row c2 (or_introl Hg))
        as (a2 & -> & E2).
      cbn. congruence. }
  destruct (age row) as [a|] eqn:Ha.
  2:{ destruct (process_row_ineligible wm clock1 row c1 (or_intror Ha))
        as (a1 & -> & E1).
      destruct (process_row_ineligible wm clock2 row c2 (or_intror Ha))
        as (a2 & -> & E2).
      cbn. congruence. }
  rewrite (process_row_eligible wm clock1 row c1 g a Hg Ha).
  rewrite (process_row_eligible wm clock2 row c2 g a Hg Ha). cbn zeta.
  rewrite (get_dict_state_store (userId row) c1 c2 Hs).
  rewrite initialize_state_shape.
  destruct (is_page_refresh row _) as [[|]|e]; [| |reflexivity].
  - cbn. apply put_dict_state_observable. exact H.
  - apply run_automaton_agree. exact H.
Qed.

Lemma process_dataframe_agree wm clock1 clock2 df : forall c1 c2,
  observable c1 = observable c2 ->
  agree (process_dataframe wm clock1 df c1) (process_dataframe wm clock2 df c2).
Proof.
  induction df as [|row df IH]; intros c1 c2 H; cbn [process_dataframe].
  - exact H.
  - pose proof (process_row_agree wm clock1 clock2 row c1 c2 H) as Hr.
    destruct (process_row wm clock1 row c1) as [a1|e1],
             (process_row wm clock2 row c2) as [a2|e2]; cbn in Hr |- *;
      try contradiction.
    + apply IH, Hr.
    + exact Hr.
Qed.

Lemma get_dict_state_insert uid us m c :
  store c = <[uid := us]> m -> get_dict_state uid c = us.
Proof. unfold get_dict_state. intros ->. now rewrite lookup_insert_eq. Qed.

Lemma rest_rows_Some us rs : st_rows us = Some rs -> rest_rows us = rs.
Proof. unfold rest_rows. now intros ->. Qed.

Lemma observable_split c m r :
  observable c = (m, r) -> store c = m /\ special_offers_recipients c = r.
Proof. unfold observable. intros [= -> ->]. split; reflexivity. Qed.

Lemma guard_window_closed wm t row us b :
  guard wm t row us = Ok b ->
  check_time_elapsed wm row us = Ok false -> b = false.
Proof.
  unfold guard, py_and. intros G W. rewrite W in G.
  destruct (condition t row us) as [[|]|e]; cbn in G; congruence.
Qed.

Lemma guards_total_nonempty wm row o st r0 rs rules g a :
  gender row = Some g -> age row = Some a ->
  dict_get transitions st = Ok rules ->
  Forall (fun t => exists b,
            guard wm t row (mkState (Some o) (Some st) (Some (r0 :: rs)))
            = Ok b) rules.
Proof.
  intros Hg Ha. unfold transitions. cbn [dict_get].
  destruct (String.eqb "init" st) eqn:E1.
  { apply String.eqb_eq in E1. subst st. intros [= <-].
    repeat constructor. exact (guard_total_init wm row o _ g a Hg Ha). }
  destruct (String.eqb "clothes_visited" st).
  { intros [= <-]. repeat constructor;
      apply guard_total_category; cbn; eauto. }
  destruct (String.eqb "shoes_visited" st); [|discriminate].
  intros [= <-]. repeat constructor;
    apply guard_total_shoes; [left|right]; reflexivity.
Qed.

(** * The claims *)


(** C2.  Whenever the rule taken for an event leads to [offer], processing
    that very event appends exactly one entry (user, offer) to the
    recipients and leaves the user in [init] with no rows; and no reachable
    configuration has a user resting in [offer]. *)
Theorem offer_resolved_in_same_step wm clock :
  (forall row c g a rules t,
     gender row = Some g -> age row = Some a ->
     is_page_refresh row
       (initialize_state g (get_dict_state (userId row) c)) = Ok false ->
     dict_get transitions (rest_state (get_dict_state (userId row) c))
       = Ok rules ->
     matched_transition wm rules row
       (initialize_state g (get_dict_state (userId row) c)) = Ok (Some t) ->
     next_state t = "offer" ->
     exists c', process_row wm clock row c = Ok c' /\
       special_offers_recipients c' =
         special_offers_recipients c ++ [(userId row, offer_for g)] /\
       store c' = <[userId row := reset_state (offer_for g)]> (store c) /\
       st_state (get_dict_state (userId row) c') = Some "init" /\
       st_rows (get_dict_state (userId row) c') = Some []) /\
  (forall c uid,
     reachable wm clock c ->
     rest_state (get_dict_state uid c) <> "offer").
Proof.
  split.
  - intros row c g a rules t Hg Ha Hr Hd Hm Ht.
    destruct (process_row_automaton wm clock row c g a rules (Some t)
                Hg Ha Hr Hd Hm) as (c' & E & O).
    rewrite Ht in O. cbn in O. apply observable_split in O.
    destruct O as [S R]. exists c'.
    pose proof (get_dict_state_insert _ _ _ _ S) as U.
    rewrite U. auto.
  - intros c uid Hc.
    destruct (rest_view_ok _ (get_dict_state_ok c uid
                                (reachable_store_ok wm clock c Hc)))
      as [Hk _].
    destruct Hk as [-> | [-> | ->]]; discriminate.
Qed.

(** C3.  The default window is 30 minutes in nanoseconds; with no rows the
    window check passes; and an eligible event that is no refresh, on rows
    whose first element is at least a window older, makes every rule of
    the current state fail, and the user is reset to [init] with no rows,
    the recipients staying as they were. *)
Theorem window_enforced wm clock :
  window_ns (window_minutes_of_env None) = 30 * 60 * 1000000000 /\
  (forall row o st,
     check_time_elapsed wm row (mkState o st (Some [])) = Ok true) /\
  (forall row c g a r0 rs rules,
     gender row = Some g -> age row = Some a ->
     st_rows (get_dict_state (userId row) c) = Some (r0 :: rs) ->
     is_page_refresh row
       (initialize_state g (get_dict_state (userId row) c)) = Ok false ->
     dict_get transitions (rest_state (get_dict_state (userId row) c))
       = Ok rules ->
     timestamp row - timestamp r0 >= window_ns wm ->
     Forall (fun t =>
               guard wm t row
                 (initialize_state g (get_dict_state (userId row) c))
               = Ok false) rules /\
     exists c', process_row wm clock row c = Ok c' /\
       store c' = <[userId row := reset_state (offer_for g)]> (store c) /\
       st_state (get_dict_state (userId row) c') = Some "init" /\
       st_rows (get_dict_state (userId row) c') = Some [] /\
       special_offers_recipients c' = special_offers_recipients c).
Proof.
  split; [reflexivity|]. split; [reflexivity|].
  intros row c g a r0 rs rules Hg Ha Hrows Hr Hd Hw.
  assert (Hall : Forall (fun t =>
               guard wm t row
                 (initialize_state g (get_dict_state (userId row) c))
               = Ok false) rules).
  { rewrite initialize_state_shape, (rest_rows_Some _ _ Hrows).
    pose proof (guards_total_nonempty wm row (offer_for g) _ r0 rs rules g a
                  Hg Ha Hd) as Htot.
    eapply Forall_impl; [exact Htot|].
    intros t [b Hb]. cbn in Hb. rewrite Hb. f_equal.
    apply (guard_window_closed _ _ _ _ _ Hb).
    rewrite check_time_elapsed_cons. f_equal. apply Z.ltb_ge. lia. }
  split; [exact Hall|].
  destruct (process_row_automaton wm clock row c g a rules None
              Hg Ha Hr Hd (matched_transition_none _ _ _ _ Hall))
    as (c' & E & O).
  apply observable_split in O. destruct O as [S R]. exists c'.
  pose proof (get_dict_state_insert _ _ _ _ S) as U.
  rewrite U. auto.
Qed.


(** C5.  In every reachable configuration, for every user, the rows are
    empty exactly when the state is [init]; a dict that is in the store has
    both keys. *)
Theorem rows_empty_iff_init wm clock c uid :
  reachable wm clock c ->
  (rest_rows (get_dict_state uid c) = [] <->
   rest_state (get_dict_state uid c) = "init") /\
  (forall us, store c !! uid = Some us ->
     exists st rs, st_state us = Some st /\ st_rows us = Some rs /\
                   (rs = [] <-> st = "init")).
Proof.
  intros Hc. pose proof (reachable_store_ok wm clock c Hc) as Hok. split.
  - exact (proj2 (rest_view_ok _ (get_dict_state_ok c uid Hok))).
  - intros us E. destruct (Hok uid us E) as (o & st & rs & -> & _ & Hi).
    exists st, rs. auto.
Qed.


(** C7 (as amended).  An eligible event whose product is that of the last
    row is skipped: state and rows stay as they are and no recipient is
    added; the offer entry is overwritten with the offer of the event's
    gender. *)
Theorem page_refresh_keeps_state_and_rows wm clock row c g a rs lst :
  gender row = Some g -> age row = Some a ->
  st_rows (get_dict_state (userId row) c) = Some rs ->
  last rs = Some lst -> productId lst = productId row ->
  exists c', process_row wm clock row c = Ok c' /\
    rest_state (get_dict_state (userId row) c') =
      rest_state (get_dict_state (userId row) c) /\
    st_rows (get_dict_state (userId row) c') = Some rs /\
    st_offer (get_dict_state (userId row) c') = Some (offer_for g) /\
    (forall uid, uid <> userId row -> store c' !! uid = store c !! uid) /\
    special_offers_recipients c' = special_offers_recipients c.
Proof.
  intros Hg Ha Hrows Hl Hp.
  destruct (process_row_refresh wm clock row c g a Hg Ha) as (c' & E & O).
  { rewrite initialize_state_shape, (rest_rows_Some _ _ Hrows).
    erewrite is_page_refresh_last by exact Hl.
    f_equal. apply String.eqb_eq, Hp. }
  apply observable_split in O. destruct O as [S R]. exists c'.
  pose proof (get_dict_state_insert _ _ _ _ S) as U.
  rewrite U, initialize_state_shape, (rest_rows_Some _ _ Hrows).
  cbn. repeat split; try assumption.
  intros uid Hne. rewrite S. now apply lookup_insert_ne.
Qed.


(** C9.  Two runs over the same dataframe from configurations with the same
    store and the same recipients end alike, whatever the clocks read and
    whatever was logged before: both raise the same exception, or both end
    with the same store and the same recipients. *)
Theorem processing_deterministic wm clock1 clock2 df c1 c2 :
  store c1 = store c2 ->
  special_offers_recipients c1 = special_offers_recipients c2 ->
  agree (process_dataframe wm clock1 df c1)
        (process_dataframe wm clock2 df c2).
Proof.
  intros Hs Hr. apply process_dataframe_agree.
  unfold observable. now rewrite Hs, Hr.
Qed.

(** C10.  In every reachable configuration the state of every user is a key
    of the transition table, so the lookup succeeds; a user in
    [shoes_visited] has a first row, so the rule that reads it finds it; the
    window check never raises on a dict that has its rows; and no dataframe
    makes the detector raise. *)
Theorem reachable_never_raises wm clock c :
  reachable wm clock c ->
  (forall uid,
     known_state (rest_state (get_dict_state uid c)) /\
     exists rules,
       dict_get transitions (rest_state (get_dict_state uid c)) = Ok rules) /\
  (forall uid g,
     rest_state (get_dict_state uid c) = "shoes_visited" ->
     exists r0,
       first_row (initialize_state g (get_dict_state uid c)) = Ok r0) /\
  (forall row g us,
     exists b, check_time_elapsed wm row (initialize_state g us) = Ok b) /\
  (forall df, exists c', process_dataframe wm clock df c = Ok c').
Proof.
  intros Hc. pose proof (reachable_store_ok wm clock c Hc) as Hok.
  split; [|split; [|split]].
  - intros uid.
    destruct (rest_view_ok _ (get_dict_state_ok c uid Hok)) as [Hk _].
    split; [exact Hk|exact (known_state_rules _ Hk)].
  - intros uid g Hs.
    destruct (rest_view_ok _ (get_dict_state_ok c uid Hok)) as [_ Hi].
    rewrite initialize_state_shape.
    destruct (rest_rows (get_dict_state uid c)) as [|r0 rs].
    + destruct Hi as [Hi _]. rewrite Hi in Hs by reflexivity. discriminate.
    + exists r0. reflexivity.
  - intros row g us. rewrite initialize_state_shape.
    apply check_time_elapsed_total.
  - intros df. destruct (process_dataframe_ok wm clock df c Hok)
      as (c' & E & _). eauto.
Qed.

(** * The claims on concrete runs *)



Lemma offer_resolved_in_same_step_witness :
  (exists c',
     process_row 30 still_clock view_other_clothes shoes_cfg = Ok c' /\
     special_offers_recipients c' = [("u1", "offer1")] /\
     st_state (get_dict_state "u1" c') = Some "init" /\
     st_rows (get_dict_state "u1" c') = Some []) /\
  rest_state (get_dict_state "u1" initial_cfg) <> "offer".
Proof.
  split.
  - destruct (proj1 (offer_resolved_in_same_step 30 still_clock)
                view_other_clothes shoes_cfg "M" 40
                [shoes_to_offer; shoes_to_clothes] shoes_to_offer)
      as (c' & E & R & _ & S1 & S2);
      [reflexivity|reflexivity|vm_compute; reflexivity|
       vm_compute; reflexivity|vm_compute; reflexivity|reflexivity|].
    exists c'. split; [exact E|]. split; [exact R|]. split; assumption.
  - apply (proj2 (offer_resolved_in_same_step 30 still_clock)
             initial_cfg "u1" (reach_start 30 still_clock)).
Defined.

Lemma window_enforced_witness :
  timestamp (click 1800000000000 "u1" "clothing" "P3" "M" 40)
    - timestamp view_clothes >= window_ns 30 /\
  exists c',
    process_row 30 still_clock
      (click 1800000000000 "u1" "clothing" "P3" "M" 40) shoes_cfg = Ok c' /\
    st_state (get_dict_state "u1" c') = Some "init" /\
    st_rows (get_dict_state "u1" c') = Some [] /\
    special_offers_recipients c' = [].
Proof.
  split; [vm_compute; discriminate|].
  destruct (proj2 (proj2 (window_enforced 30 still_clock))
              (click 1800000000000 "u1" "clothing" "P3" "M" 40) shoes_cfg
              "M" 40 view_clothes [view_shoes]
              [shoes_to_offer; shoes_to_clothes])
    as (_ & c' & E & _ & S1 & S2 & R);
    [reflexivity|reflexivity|vm_compute; reflexivity|vm_compute; reflexivity|
     vm_compute; reflexivity|vm_compute; discriminate|].
  exists c'. split; [exact E|]. split; [exact S1|]. split; [exact S2|exact R].
Defined.


Lemma rows_empty_iff_init_witness :
  process_dataframe 30 still_clock [view_clothes; view_shoes] initial_cfg
    = Ok (run_from initial_cfg [view_clothes; view_shoes]) /\
  (rest_rows (get_dict_state "u1"
                (run_from initial_cfg [view_clothes; view_shoes])) = [] <->
   rest_state (get_dict_state "u1"
                 (run_from initial_cfg [view_clothes; view_shoes])) = "init").
Proof.
  assert (E : process_dataframe 30 still_clock [view_clothes; view_shoes]
                initial_cfg
              = Ok (run_from initial_cfg [view_clothes; view_shoes]))
    by (vm_compute; reflexivity).
  split; [exact E|].
  exact (proj1 (rows_empty_iff_init 30 still_clock _ "u1"
                  (reach_frame 30 still_clock _ _ _
                     (reach_start 30 still_clock) E))).
Defined.


Lemma page_refresh_keeps_state_and_rows_witness :
  exists c',
    process_row 30 still_clock (click 60000000000 "u1" "clothing" "P1" "M" 40)
      clothes_cfg = Ok c' /\
    rest_state (get_dict_state "u1" c') = "clothes_visited" /\
    st_rows (get_dict_state "u1" c') =
      Some [click 0 "u1" "clothing" "P1" "F" 30] /\
    st_offer (get_dict_state "u1" c') = Some "offer1".
Proof.
  destruct (page_refresh_keeps_state_and_rows 30 still_clock
              (click 60000000000 "u1" "clothing" "P1" "M" 40) clothes_cfg
              "M" 40 [click 0 "u1" "clothing" "P1" "F" 30]
              (click 0 "u1" "clothing" "P1" "F" 30))
    as (c' & E & S1 & S2 & S3 & _);
    [reflexivity|reflexivity|vm_compute; reflexivity|reflexivity|
     reflexivity|].
  exists c'. split; [exact E|]. split; [exact S1|]. split; [exact S2|exact S3].
Defined.

(** C7 as stated fails: the skipped event rewrites the offer entry.  The
    user was recorded as female ("offer2"); the refresh carries gender M and
    the stored offer becomes "offer1". *)
Lemma page_refresh_rewrites_offer :
  is_page_refresh (click 60000000000 "u1" "clothing" "P1" "M" 40)
    (get_dict_state "u1" clothes_cfg) = Ok true /\
  st_offer (get_dict_state "u1" clothes_cfg) = Some "offer2" /\
  exists c',
    process_row 30 still_clock (click 60000000000 "u1" "clothing" "P1" "M" 40)
      clothes_cfg = Ok c' /\
    st_offer (get_dict_state "u1" c') = Some "offer1" /\
    get_dict_state "u1" c' <> get_dict_state "u1" clothes_cfg.
Proof.
  split; [vm_compute; reflexivity|]. split; [vm_compute; reflexivity|].
  eexists. split; [vm_compute; reflexivity|].
  split; [vm_compute; reflexivity|]. vm_compute. discriminate.
Qed.



Lemma processing_deterministic_witness :
  agree
    (process_dataframe 30 still_clock
       [view_clothes; view_shoes; view_other_clothes] initial_cfg)
    (process_dataframe 30 Z.of_nat
       [view_clothes; view_shoes; view_other_clothes]
       (mkCfg ∅ [] [ProcessingFrame "u0"] 7%nat)).
Proof.
  apply (processing_deterministic 30 still_clock Z.of_nat
           [view_clothes; view_shoes; view_other_clothes] initial_cfg
           (mkCfg ∅ [] [ProcessingFrame "u0"] 7%nat));
    reflexivity.
Defined.

Lemma reachable_never_raises_witness :
  known_state (rest_state (get_dict_state "u1"
                 (run_from initial_cfg [view_clothes; view_shoes]))) /\
  exists c',
    process_dataframe 30 still_clock [view_other_clothes]
      (run_from initial_cfg [view_clothes; view_shoes]) = Ok c'.
Proof.
  assert (E : process_dataframe 30 still_clock [view_clothes; view_shoes]
                initial_cfg
              = Ok (run_from initial_cfg [view_clothes; view_shoes]))
    by (vm_compute; reflexivity).
  pose proof (reachable_never_raises 30 still_clock _
                (reach_frame 30 still_clock _ _ _
                   (reach_start 30 still_clock) E)) as (H1 & _ & _ & H4).
  split; [exact (proj1 (H1 "u1"))|exact (H4 [view_other_clothes])].
Defined.

(** * Further properties of the detector *)

(** ** What the trace records *)

Lemma triggers_app tr tr' : triggers (tr ++ tr') = triggers tr ++ triggers tr'.
Proof.
  induction tr as [|m tr IH]; [reflexivity|].
  destruct m; cbn; rewrite IH; reflexivity.
Qed.

(** ** The rule that fires *)

Lemma matched_transition_fired wm rules row us t :
  matched_transition wm rules row us = Ok (Some t) ->
  In t rules /\ guard wm t row us = Ok true.
Proof.
  induction rules as [|t' rules IH]; cbn; [discriminate|].
  destruct (guard wm t' row us) as [[|]|e] eqn:G; cbn; intros H.
  - injection H as <-. split; [left; reflexivity|exact G].
  - destruct (IH H) as [Hin Hg]. split; [right; exact Hin|exact Hg].
  - discriminate.
Qed.

Lemma matched_transition_unfired wm rules row us :
  matched_transition wm rules row us = Ok None ->
  Forall (fun t => guard wm t row us = Ok false) rules.
Proof.
  induction rules as [|t' rules IH]; cbn; [constructor|].
  destruct (guard wm t' row us) as [[|]|e] eqn:G; cbn; intros H;
    try discriminate.
  constructor; [exact G|exact (IH H)].
Qed.

Lemma guard_true_inv wm t row o st rs :
  guard wm t row (mkState o st (Some rs)) = Ok true ->
  condition t row (mkState o st (Some rs)) = Ok true /\
  match rs with
  | [] => True
  | r0 :: _ => timestamp row - timestamp r0 < window_ns wm
  end.
Proof.
  unfold guard, py_and.
  destruct (condition t row _) as [[|]|e]; cbn [mbind res_bind];
    try discriminate.
  intros H. split; [reflexivity|]. destruct rs as [|r0 rs]; [exact I|].
  rewrite check_time_elapsed_cons in H. injection H as H.
  apply Z.ltb_lt, H.
Qed.

Lemma rules_members st rules t :
  dict_get transitions st = Ok rules -> In t rules ->
  (st = "init" /\ t = init_to_clothes) \/
  (st = "clothes_visited" /\ (t = clothes_to_shoes \/ t = clothes_to_clothes)) \/
  (st = "shoes_visited" /\ (t = shoes_to_offer \/ t = shoes_to_clothes)).
Proof.
  unfold transitions. cbn [dict_get].
  destruct (String.eqb "init" st) eqn:E1.
  { apply String.eqb_eq in E1. intros [= <-] [<-|[]]. left. auto. }
  destruct (String.eqb "clothes_visited" st) eqn:E2.
  { apply String.eqb_eq in E2. intros [= <-] [<-|[<-|[]]]; right; left; auto. }
  destruct (String.eqb "shoes_visited" st) eqn:E3; [|discriminate].
  apply String.eqb_eq in E3. intros [= <-] [<-|[<-|[]]]; right; right; auto.
Qed.

Lemma init_condition_true row us :
  condition init_to_clothes row us = Ok true <->
  category row = "clothing" /\ qualifies row.
Proof.
  cbn. unfold category_is, demographic, row_gender, row_age, qualifies.
  destruct (String.eqb (category row) "clothing") eqn:Ec; cbn.
  2:{ apply String.eqb_neq in Ec. split; [discriminate|tauto]. }
  apply String.eqb_eq in Ec.
  destruct (gender row) as [g|]; cbn.
  2:{ split; [discriminate|]. intros [_ [[H _]|[H _]]]; discriminate. }
  destruct (String.eqb g "M") eqn:Em; cbn.
  - apply String.eqb_eq in Em. subst g.
    destruct (age row) as [a|]; cbn.
    2:{ split; [discriminate|].
        intros [_ [[_ (a & H & _)]|[H _]]]; discriminate. }
    destruct ((35 <=? a) && (a <=? 45)) eqn:Er; cbn.
    + apply andb_prop in Er. destruct Er as [H1 H2].
      apply Z.leb_le in H1. apply Z.leb_le in H2.
      split; [|reflexivity]. intros _. split; [exact Ec|]. left.
      split; [reflexivity|]. exists a. auto.
    + split; [discriminate|].
      intros [_ [[_ (a' & [= <-] & H1 & H2)]|[H _]]]; [|discriminate].
      apply Z.leb_le in H1. apply Z.leb_le in H2.
      rewrite H1, H2 in Er. discriminate.
  - apply String.eqb_neq in Em.
    destruct (String.eqb g "F") eqn:Ef; cbn.
    + apply String.eqb_eq in Ef. subst g.
      destruct (age row) as [a|]; cbn.
      2:{ split; [discriminate|].
          intros [_ [[H _]|[_ (a & H & _)]]]; discriminate. }
      destruct ((25 <=? a) && (a <=? 35)) eqn:Er; cbn.
      * apply andb_prop in Er. destruct Er as [H1 H2].
        apply Z.leb_le in H1. apply Z.leb_le in H2.
        split; [|reflexivity]. intros _. split; [exact Ec|]. right.
        split; [reflexivity|]. exists a. auto.
      * split; [discriminate|].
        intros [_ [[H _]|[_ (a' & [= <-] & H1 & H2)]]]; [discriminate|].
        apply Z.leb_le in H1. apply Z.leb_le in H2.
        rewrite H1, H2 in Er. discriminate.
    + apply String.eqb_neq in Ef. split; [discriminate|].
      intros [_ [[[= H] _]|[[= H] _]]]; congruence.
Qed.

(** What a taken rule tells about the event, state by state. *)
Lemma fired_rule_inv wm st rules t row o rs :
  dict_get transitions st = Ok rules -> In t rules ->
  guard wm t row (mkState (Some o) (Some st) (Some rs)) = Ok true ->
  match rs with
  | [] => True
  | r0 :: _ => timestamp row - timestamp r0 < window_ns wm
  end /\
  ((st = "init" /\ next_state t = "clothes_visited" /\
    category row = "clothing" /\ qualifies row) \/
   (st = "clothes_visited" /\ next_state t = "shoes_visited" /\
    category row = "shoes") \/
   (st = "clothes_visited" /\ next_state t = "clothes_visited" /\
    category row = "clothing") \/
   (st = "shoes_visited" /\ next_state t = "offer" /\
    category row = "clothing" /\
    exists r0 rs', rs = r0 :: rs' /\ productId row <> productId r0) \/
   (st = "shoes_visited" /\ next_state t = "clothes_visited" /\
    category row = "clothing" /\
    exists r0 rs', rs = r0 :: rs' /\ productId row = productId r0)).
Proof.
  intros Hd Hin Hg. apply guard_true_inv in Hg. destruct Hg as [Hc Hw].
  split; [exact Hw|].
  destruct (rules_members st rules t Hd Hin)
    as [[-> ->]|[[-> [-> | ->]]|[-> [-> | ->]]]].
  - left. apply init_condition_true in Hc. tauto.
  - right; left. cbn in Hc. unfold category_is in Hc.
    injection Hc as Hc. apply String.eqb_eq in Hc. auto.
  - right; right; left. cbn in Hc. unfold category_is in Hc.
    injection Hc as Hc. apply String.eqb_eq in Hc. auto.
  - right; right; right; left. cbn in Hc. unfold category_is in Hc.
    destruct (String.eqb (category row) "clothing") eqn:Ec; cbn in Hc;
      [|discriminate].
    apply String.eqb_eq in Ec.
    destruct rs as [|r0 rs']; cbn in Hc; [discriminate|].
    injection Hc as Hc. apply negb_true_iff, String.eqb_neq in Hc.
    repeat split; try assumption. eauto.
  - right; right; right; right. cbn in Hc. unfold category_is in Hc.
    destruct (String.eqb (category row) "clothing") eqn:Ec; cbn in Hc;
      [|discriminate].
    apply String.eqb_eq in Ec.
    destruct rs as [|r0 rs']; cbn in Hc; [discriminate|].
    injection Hc as Hc. apply String.eqb_eq in Hc.
    repeat split; try assumption. eauto.
Qed.

(** ** One event, with what it leaves in store, recipients and trace *)

Lemma is_page_refresh_true_inv row o st rs :
  is_page_refresh row (mkState o st (Some rs)) = Ok true ->
  exists lst, last rs = Some lst /\ productId lst = productId row.
Proof.
  destruct rs as [|r rs]; [discriminate|].
  destruct (last_is_Some r rs) as [lst Hl].
  erewrite is_page_refresh_last by exact Hl.
  intros [= H]. apply String.eqb_eq in H. eauto.
Qed.

Lemma is_page_refresh_false_inv row o st rs :
  is_page_refresh row (mkState o st (Some rs)) = Ok false ->
  forall lst, last rs = Some lst -> productId lst <> productId row.
Proof.
  intros H lst Hl. erewrite is_page_refresh_last in H by exact Hl.
  injection H as H. apply String.eqb_neq, H.
Qed.

Lemma process_row_step wm clock row c c' :
  process_row wm clock row c = Ok c' ->
  ((gender row = None \/ age row = None) /\
   observable c' = observable c /\
   triggers (trace c') = triggers (trace c)) \/
  exists g a, gender row = Some g /\ age row = Some a /\
    let u := userId row in
    let o := offer_for g in
    let st := rest_state (get_dict_state u c) in
    let rs := rest_rows (get_dict_state u c) in
    let us := mkState (Some o) (Some st) (Some rs) in
    ((exists lst, last rs = Some lst /\ productId lst = productId row) /\
     observable c' = (<[u := us]> (store c), special_offers_recipients c) /\
     triggers (trace c') = triggers (trace c)) \/
    ((forall lst, last rs = Some lst -> productId lst <> productId row) /\
     exists rules m,
       dict_get transitions st = Ok rules /\
       matched_transition wm rules row us = Ok m /\
       match m with
       | None =>
           observable c' =
             (<[u := reset_state o]> (store c), special_offers_recipients c) /\
           triggers (trace c') = triggers (trace c)
       | Some t =>
           if String.eqb (next_state t) "offer" then
             observable c' =
               (<[u := reset_state o]> (store c),
                special_offers_recipients c ++ [(u, o)]) /\
             triggers (trace c') = triggers (trace c) ++ [(last4 u, o)]
           else
             observable c' =
               (<[u := mkState (Some o) (Some (next_state t))
                               (Some (rs ++ [row]))]> (store c),
                special_offers_recipients c) /\
             triggers (trace c') = triggers (trace c)
       end).
Proof.
  intros E.
  destruct (gender row) as [g|] eqn:Hg.
  2:{ left. split; [left; reflexivity|].
      unfold process_row in E. rewrite Hg in E. cbn in E.
      injection E as <-. cbn. rewrite !triggers_app. cbn.
      rewrite !app_nil_r. auto. }
  destruct (age row) as [a|] eqn:Ha.
  2:{ left. split; [right; reflexivity|].
      unfold process_row in E. rewrite Hg, Ha in E. cbn in E.
      injection E as <-. cbn. rewrite !triggers_app. cbn.
      rewrite !app_nil_r. auto. }
  right. exists g, a. split; [reflexivity|]. split; [reflexivity|].
  rewrite (process_row_eligible wm clock row c g a Hg Ha) in E.
  cbn zeta in *. rewrite initialize_state_shape in E.
  destruct (is_page_refresh row _) as [[|]|e] eqn:Hr; [| |discriminate].
  - left. split; [exact (is_page_refresh_true_inv _ _ _ _ Hr)|].
    injection E as <-. cbn. rewrite !triggers_app. cbn.
    rewrite !app_nil_r. auto.
  - right. split; [exact (is_page_refresh_false_inv _ _ _ _ Hr)|].
    rewrite run_automaton_cases in E.
    destruct (dict_get transitions _) as [rules|e] eqn:Hd; [|discriminate].
    cbn zeta in E.
    destruct (matched_transition wm rules row _) as [[t|]|e] eqn:Hm;
      [| |discriminate].
    + exists rules, (Some t). split; [reflexivity|]. split; [exact Hm|].
      destruct (String.eqb (next_state t) "offer"); injection E as <-; cbn;
        rewrite !triggers_app; cbn; rewrite !app_nil_r; auto.
    + exists rules, None. split; [reflexivity|]. split; [exact Hm|].
      injection E as <-. cbn. rewrite !triggers_app. cbn.
      rewrite !app_nil_r. auto.
Qed.

(** ** The shape of stored sessions is kept *)

Lemma no_stutter_snoc rs row :
  no_stutter rs ->
  (forall lst, last rs = Some lst -> productId lst <> productId row) ->
  no_stutter (rs ++ [row]).
Proof.
  induction rs as [|r rs IH]; [intros; exact I|].
  destruct rs as [|r' rs'].
  - intros _ H. cbn. split; [apply H; reflexivity|exact I].
  - intros [Hne Hs] H. cbn [app no_stutter]. split; [exact Hne|].
    apply IH; [exact Hs|]. intros lst Hl. apply H. exact Hl.
Qed.

Lemma offer_for_cases g : offer_for g = "offer1" \/ offer_for g = "offer2".
Proof. unfold offer_for. destruct (String.eqb g "M"); auto. Qed.

Lemma session_shape_reset wm u g : session_shape wm u (reset_state (offer_for g)).
Proof.
  exists (offer_for g), "init", []. split; [reflexivity|].
  split; [apply offer_for_cases|]. split; [constructor|].
  split; [exact I|reflexivity].
Qed.

Lemma session_shape_view wm u c g :
  store_shape wm c ->
  session_shape wm u
    (mkState (Some (offer_for g))
             (Some (rest_state (get_dict_state u c)))
             (Some (rest_rows (get_dict_state u c)))).
Proof.
  intros Hc. unfold get_dict_state.
  destruct (store c !! u) as [us|] eqn:E; cbn.
  - destruct (Hc u us E) as (o & st & rs & -> & _ & H). cbn.
    exists (offer_for g), st, rs. split; [reflexivity|].
    split; [apply offer_for_cases|exact H].
  - apply session_shape_reset.
Qed.

Lemma session_shape_advance wm u row o st rs rules t :
  session_shape wm u (mkState (Some o) (Some st) (Some rs)) ->
  userId row = u -> eligible row ->
  (forall lst, last rs = Some lst -> productId lst <> productId row) ->
  dict_get transitions st = Ok rules -> In t rules ->
  guard wm t row (mkState (Some o) (Some st) (Some rs)) = Ok true ->
  next_state t <> "offer" ->
  session_shape wm u
    (mkState (Some o) (Some (next_state t)) (Some (rs ++ [row]))).
Proof.
  intros (o' & st' & rs' & [= <- <- <-] & Ho & Hall & Hns & Hsh)
         Hu He Hlast Hd Hin Hg Hno.
  destruct (fired_rule_inv wm st rules t row o rs Hd Hin Hg) as [Hw Hcase].
  exists o, (next_state t), (rs ++ [row]). split; [reflexivity|].
  split; [exact Ho|].
  split; [apply Forall_app_2; [exact Hall|constructor; [split; assumption|constructor]]|].
  split; [apply no_stutter_snoc; assumption|].
  destruct rs as [|r0 rs0].
  - subst st. cbn [app].
    destruct Hcase as [(_ & Hn & Hc & Hq)|[(E & _)|[(E & _)|[(E & _)|(E & _)]]]];
      try discriminate E.
    split; [exact Hc|]. split; [exact Hq|]. split; [constructor|].
    exists row. split; [reflexivity|]. left. auto.
  - destruct Hsh as (Hc0 & Hq0 & Hwin & lst & Hl & Hst). cbn [app].
    split; [exact Hc0|]. split; [exact Hq0|].
    split; [apply Forall_app_2; [exact Hwin|constructor; [exact Hw|constructor]]|].
    exists row. split; [exact (last_snoc row (r0 :: rs0))|].
    destruct Hcase
      as [(E & _)|[(_ & Hn & Hc)|[(_ & Hn & Hc)|[(_ & Hn & _)|(_ & Hn & Hc & _)]]]].
    + subst st. destruct Hst as [(E & _)|(E & _)]; discriminate E.
    + right. split; [exact Hn|]. split; [exact Hc|].
      cbn [length]. rewrite length_app. cbn [length]. lia.
    + left. auto.
    + contradiction.
    + left. auto.
Qed.

Lemma store_shape_insert wm u us m c c' :
  store_shape wm c -> store c' = <[u := us]> m -> m = store c ->
  session_shape wm u us -> store_shape wm c'.
Proof.
  intros Hc E -> Hu. unfold store_shape. rewrite E.
  apply map_Forall_insert_2; assumption.
Qed.

Lemma process_row_shape wm clock row c c' :
  store_shape wm c -> process_row wm clock row c = Ok c' ->
  store_shape wm c'.
Proof.
  intros Hc E.
  destruct (process_row_step wm clock row c c' E)
    as [(_ & O & _)|(g & a & Hg & Ha & H)].
  { apply observable_split in O. destruct O as [S _].
    unfold store_shape. rewrite S. exact Hc. }
  cbn zeta in H.
  pose proof (session_shape_view wm (userId row) c g Hc) as Hv.
  destruct H as [(_ & O & _)|(Hlast & rules & m & Hd & Hm & H)].
  { apply observable_split in O. destruct O as [S _].
    exact (store_shape_insert wm _ _ _ c c' Hc S eq_refl Hv). }
  destruct m as [t|].
  - destruct (matched_transition_fired _ _ _ _ _ Hm) as [Hin Hgd].
    destruct (String.eqb (next_state t) "offer") eqn:Eo;
      destruct H as [O _]; apply observable_split in O; destruct O as [S _].
    + exact (store_shape_insert wm _ _ _ c c' Hc S eq_refl
               (session_shape_reset wm _ g)).
    + apply String.eqb_neq in Eo.
      refine (store_shape_insert wm _ _ _ c c' Hc S eq_refl _).
      apply (session_shape_advance wm _ row _ _ _ rules t Hv eq_refl);
        try assumption.
      split; eauto.
  - destruct H as [O _]. apply observable_split in O. destruct O as [S _].
    exact (store_shape_insert wm _ _ _ c c' Hc S eq_refl
             (session_shape_reset wm _ g)).
Qed.

Lemma process_dataframe_shape wm clock df : forall c c',
  store_shape wm c -> process_dataframe wm clock df c = Ok c' ->
  store_shape wm c'.
Proof.
  induction df as [|row df IH]; intros c c' Hc E; cbn in E.
  - injection E as <-. exact Hc.
  - destruct (process_row wm clock row c) as [c1|e] eqn:E1; [|discriminate].
    cbn in E. exact (IH c1 c' (process_row_shape wm clock row c c1 Hc E1) E).
Qed.

Lemma reachable_store_shape wm clock c :
  reachable wm clock c -> store_shape wm c.
Proof.
  induction 1 as [|c df c' _ IH E|c _ IH].
  - apply map_Forall_empty.
  - exact (process_dataframe_shape wm clock df c c' IH E).
  - exact IH.
Qed.

Lemma reachable_session_shape wm clock c u :
  reachable wm clock c ->
  session_shape wm u
    (mkState (Some "offer1")
             (Some (rest_state (get_dict_state u c)))
             (Some (rest_rows (get_dict_state u c)))).
Proof.
  intros Hc.
  exact (session_shape_view wm u c "M" (reachable_store_shape wm clock c Hc)).
Qed.

(** ** Invariants of the stored sessions *)


(** X2.  In every reachable configuration every row after the first lies
    less than a window after the first row of its session. *)
Theorem rows_within_window_of_first wm clock c u r0 rs :
  reachable wm clock c ->
  rest_rows (get_dict_state u c) = r0 :: rs ->
  Forall (fun r => timestamp r - timestamp r0 < window_ns wm) rs.
Proof.
  intros Hc Hrs.
  destruct (reachable_session_shape wm clock c u Hc)
    as (o & st & rs' & [= _ <- <-] & _ & _ & _ & H).
  rewrite Hrs in H. tauto.
Qed.

(** X3.  In every reachable configuration no two neighbouring rows of a
    session carry the same product. *)
Theorem rows_never_repeat_product wm clock c u :
  reachable wm clock c ->
  no_stutter (rest_rows (get_dict_state u c)).
Proof.
  intros Hc.
  destruct (reachable_session_shape wm clock c u Hc)
    as (o & st & rs & [= _ <- <-] & _ & _ & H & _).
  exact H.
Qed.

(** X4.  In every reachable configuration the first row of a session is a
    clothing view by a male aged 35 to 45 or a female aged 25 to 35. *)
Theorem first_row_is_qualifying_clothing wm clock c u r0 rs :
  reachable wm clock c ->
  rest_rows (get_dict_state u c) = r0 :: rs ->
  category r0 = "clothing" /\ qualifies r0.
Proof.
  intros Hc Hrs.
  destruct (reachable_session_shape wm clock c u Hc)
    as (o & st & rs' & [= _ <- <-] & _ & _ & _ & H).
  rewrite Hrs in H. tauto.
Qed.

(** X5.  In every reachable configuration the state of a session with rows
    is read off its last row: [clothes_visited] after a clothing view,
    [shoes_visited] after a shoes view, and then there are at least two
    rows. *)
Theorem state_follows_last_row wm clock c u lst :
  reachable wm clock c ->
  last (rest_rows (get_dict_state u c)) = Some lst ->
  (rest_state (get_dict_state u c) = "clothes_visited" /\
   category lst = "clothing") \/
  (rest_state (get_dict_state u c) = "shoes_visited" /\
   category lst = "shoes" /\
   (2 <= length (rest_rows (get_dict_state u c)))%nat).
Proof.
  intros Hc Hl.
  destruct (reachable_session_shape wm clock c u Hc)
    as (o & st & rs & [= _ <- <-] & _ & _ & _ & H).
  destruct (rest_rows (get_dict_state u c)) as [|r0 rs]; [discriminate|].
  destruct H as (_ & _ & _ & lst' & Hl' & H).
  rewrite Hl in Hl'. injection Hl' as <-. exact H.
Qed.

(** ** One event: what can change *)

Lemma observable_insert c' u us m r :
  observable c' = (<[u := us]> m, r) ->
  get_dict_state u c' = us /\
  (forall v, v <> u -> store c' !! v = m !! v) /\
  special_offers_recipients c' = r.
Proof.
  intros O. apply observable_split in O. destruct O as [S R].
  split; [exact (get_dict_state_insert _ _ _ _ S)|]. split; [|exact R].
  intros v Hv. rewrite S. apply lookup_insert_ne. congruence.
Qed.

(** X6.  An event leaves the dicts of all other users untouched, and the
    rows of its own user either as they were, or extended by the event, or
    empty: rows are never reordered, shortened from the front, or given
    another first element while the session lasts. *)
Theorem rows_kept_extended_or_cleared wm clock row c c' :
  process_row wm clock row c = Ok c' ->
  (forall v, v <> userId row -> store c' !! v = store c !! v) /\
  (rest_rows (get_dict_state (userId row) c') =
     rest_rows (get_dict_state (userId row) c) \/
   rest_rows (get_dict_state (userId row) c') =
     rest_rows (get_dict_state (userId row) c) ++ [row] \/
   rest_rows (get_dict_state (userId row) c') = []).
Proof.
  intros E.
  destruct (process_row_step wm clock row c c' E)
    as [(_ & O & _)|(g & a & Hg & Ha & H)].
  { apply observable_split in O. destruct O as [S _].
    split; [intros v _; now rewrite S|].
    left. now rewrite (get_dict_state_store _ c' c S). }
  cbn zeta in H.
  destruct H as [(_ & O & _)|(_ & rules & m & _ & _ & H)].
  { destruct (observable_insert _ _ _ _ _ O) as (U & F & _).
    split; [exact F|]. left. rewrite U. reflexivity. }
  destruct m as [t|].
  - destruct (String.eqb (next_state t) "offer"); destruct H as [O _];
      destruct (observable_insert _ _ _ _ _ O) as (U & F & _);
      (split; [exact F|]); rewrite U; cbn; auto.
  - destruct H as [O _].
    destruct (observable_insert _ _ _ _ _ O) as (U & F & _).
    split; [exact F|]. rewrite U. cbn. auto.
Qed.


(** ** A dataframe: recipients and trace *)

Lemma process_row_recipients wm clock row c c' :
  process_row wm clock row c = Ok c' ->
  exists new,
    special_offers_recipients c' = special_offers_recipients c ++ new /\
    triggers (trace c') =
      triggers (trace c) ++ map (fun e => (last4 e.1, e.2)) new /\
    (new = [] \/
     exists g, gender row = Some g /\ category row = "clothing" /\
               new = [(userId row, offer_for g)]).
Proof.
  intros E.
  assert (Hsame : forall r,
            observable c' = (r, special_offers_recipients c) ->
            triggers (trace c') = triggers (trace c) ->
            exists new,
              special_offers_recipients c' =
                special_offers_recipients c ++ new /\
              triggers (trace c') =
                triggers (trace c) ++ map (fun e => (last4 e.1, e.2)) new /\
              (new = [] \/
               exists g, gender row = Some g /\ category row = "clothing" /\
                         new = [(userId row, offer_for g)])).
  { intros r O T. apply observable_split in O. destruct O as [_ R].
    exists []. cbn. rewrite !app_nil_r. auto. }
  destruct (process_row_step wm clock row c c' E)
    as [(_ & O & T)|(g & a & Hg & Ha & H)].
  { apply (Hsame (store c)); [exact O|exact T]. }
  cbn zeta in H.
  destruct H as [(_ & O & T)|(_ & rules & m & Hd & Hm & H)].
  { exact (Hsame _ O T). }
  destruct m as [t|]; [|destruct H as [O T]; exact (Hsame _ O T)].
  destruct (String.eqb (next_state t) "offer") eqn:Eo; destruct H as [O T];
    [|exact (Hsame _ O T)].
  apply String.eqb_eq in Eo. apply observable_split in O.
  destruct O as [_ R].
  destruct (matched_transition_fired _ _ _ _ _ Hm) as [Hin Hgd].
  destruct (fired_rule_inv wm _ rules t row _ _ Hd Hin Hgd) as [_ Hcase].
  exists [(userId row, offer_for g)]. split; [exact R|]. split; [exact T|].
  right. exists g. split; [exact Hg|]. split; [|reflexivity].
  destruct Hcase
    as [(_ & Hn & _)|[(_ & Hn & _)|[(_ & Hn & _)|
        [(_ & _ & Hc & _)|(_ & Hn & _)]]]];
    try (rewrite Eo in Hn; discriminate Hn).
  exact Hc.
Qed.

Lemma process_dataframe_recipients wm clock df : forall c c',
  process_dataframe wm clock df c = Ok c' ->
  exists new,
    special_offers_recipients c' = special_offers_recipients c ++ new /\
    triggers (trace c') =
      triggers (trace c) ++ map (fun e => (last4 e.1, e.2)) new /\
    (length new <= length df)%nat /\
    Forall (fun e => exists row g,
              In row df /\ gender row = Some g /\
              category row = "clothing" /\ e = (userId row, offer_for g))
           new.
Proof.
  induction df as [|row df IH]; intros c c' E; cbn in E.
  - injection E as <-. exists []. cbn. rewrite !app_nil_r. auto.
  - destruct (process_row wm clock row c) as [c1|e] eqn:E1; [|discriminate].
    cbn in E.
    destruct (process_row_recipients wm clock row c c1 E1)
      as (n1 & R1 & T1 & H1).
    destruct (IH c1 c' E) as (n2 & R2 & T2 & L2 & F2).
    exists (n1 ++ n2).
    split; [rewrite R2, R1, app_assoc; reflexivity|].
    split; [rewrite T2, T1, map_app, app_assoc; reflexivity|].
    split.
    + rewrite length_app. cbn [length].
      destruct H1 as [-> | (g & _ & _ & ->)]; cbn; lia.
    + apply Forall_app_2.
      * destruct H1 as [-> | (g & Hg & Hc & ->)]; [constructor|].
        constructor; [|constructor].
        exists row, g. split; [left; reflexivity|]. auto.
      * eapply Forall_impl; [exact F2|].
        intros e (r & g & Hin & H). exists r, g. split; [right; exact Hin|].
        exact H.
Qed.

(** X8.  Processing a dataframe only appends to the recipients, at most one
    entry per row, and each new entry names the user of a clothing view of
    the dataframe with the offer of that view's gender. *)
Theorem recipients_only_appended wm clock df c c' :
  process_dataframe wm clock df c = Ok c' ->
  exists new,
    special_offers_recipients c' = special_offers_recipients c ++ new /\
    (length new <= length df)%nat /\
    Forall (fun e => exists row g,
              In row df /\ gender row = Some g /\
              category row = "clothing" /\ e = (userId row, offer_for g))
           new.
Proof.
  intros E.
  destruct (process_dataframe_recipients wm clock df c c' E)
    as (new & R & _ & L & F).
  exists new. auto.
Qed.

(** X9.  The offer triggers logged while a dataframe is processed are
    exactly the recipients added, in the same order, each with the last
    four characters of the user id and the offer. *)
Theorem triggers_match_recipients wm clock df c c' :
  process_dataframe wm clock df c = Ok c' ->
  exists new,
    special_offers_recipients c' = special_offers_recipients c ++ new /\
    triggers (trace c') =
      triggers (trace c) ++ map (fun e => (last4 e.1, e.2)) new.
Proof.
  intros E.
  destruct (process_dataframe_recipients wm clock df c c' E)
    as (new & R & T & _).
  exists new. auto.
Qed.


(** ** An event reads nothing but the dict of its user *)

Lemma process_row_local wm clock1 clock2 row c1 c2 c1' :
  get_dict_state (userId row) c1 = get_dict_state (userId row) c2 ->
  process_row wm clock1 row c1 = Ok c1' ->
  exists c2' new,
    process_row wm clock2 row c2 = Ok c2' /\
    Forall (fun e => e.1 = userId row) new /\
    ((new = [] /\ observable c1' = observable c1 /\
      observable c2' = observable c2) \/
     exists us',
       observable c1' =
         (<[userId row := us']> (store c1),
          special_offers_recipients c1 ++ new) /\
       observable c2' =
         (<[userId row := us']> (store c2),
          special_offers_recipients c2 ++ new)).
Proof.
  intros Hu E.
  destruct (gender row) as [g|] eqn:Hg.
  2:{ destruct (process_row_ineligible wm clock1 row c1 (or_introl Hg))
        as (a1 & E1 & O1).
      destruct (process_row_ineligible wm clock2 row c2 (or_introl Hg))
        as (a2 & E2 & O2).
      rewrite E1 in E. injection E as <-.
      exists a2, []. split; [exact E2|]. split; [constructor|]. left. auto. }
  destruct (age row) as [a|] eqn:Ha.
  2:{ destruct (process_row_ineligible wm clock1 row c1 (or_intror Ha))
        as (a1 & E1 & O1).
      destruct (process_row_ineligible wm clock2 row c2 (or_intror Ha))
        as (a2 & E2 & O2).
      rewrite E1 in E. injection E as <-.
      exists a2, []. split; [exact E2|]. split; [constructor|]. left. auto. }
  rewrite (process_row_eligible wm clock1 row c1 g a Hg Ha) in E.
  rewrite (process_row_eligible wm clock2 row c2 g a Hg Ha).
  cbn zeta in *. rewrite <- Hu. rewrite initialize_state_shape in *.
  destruct (is_page_refresh row _) as [[|]|e]; [| |discriminate].
  - injection E as <-. eexists. exists []. split; [reflexivity|].
    split; [constructor|]. right. eexists. cbn. rewrite !app_nil_r.
    split; reflexivity.
  - rewrite run_automaton_cases in *.
    destruct (dict_get transitions _) as [rules|e]; [|discriminate].
    cbn zeta in *.
    destruct (matched_transition wm rules row _) as [[t|]|e];
      [| |discriminate].
    + destruct (String.eqb (next_state t) "offer"); injection E as <-.
      * eexists. exists [(userId row, offer_for g)].
        split; [reflexivity|]. split; [repeat constructor|].
        right. eexists. split; reflexivity.
      * eexists. exists []. split; [reflexivity|]. split; [constructor|].
        right. eexists. cbn. rewrite !app_nil_r. split; reflexivity.
    + injection E as <-. eexists. exists []. split; [reflexivity|].
      split; [constructor|]. right. eexists. cbn. rewrite !app_nil_r.
      split; reflexivity.
Qed.



(** ** Users do not interfere *)

Lemma for_user_app u l l' : for_user u (l ++ l') = for_user u l ++ for_user u l'.
Proof. apply filter_app. Qed.

Lemma for_user_other u v (new : list (string * string)) :
  v <> u -> Forall (fun e => e.1 = v) new -> for_user u new = [].
Proof.
  intros Hne. induction 1 as [|e new He _ IH]; [reflexivity|].
  unfold for_user in *. rewrite filter_cons, IH.
  destruct (decide (e.1 = u)); [congruence|reflexivity].
Qed.

Lemma process_row_own wm clock1 clock2 row c1 c2 c1' :
  get_dict_state (userId row) c1 = get_dict_state (userId row) c2 ->
  for_user (userId row) (special_offers_recipients c1) =
    for_user (userId row) (special_offers_recipients c2) ->
  process_row wm clock1 row c1 = Ok c1' ->
  exists c2',
    process_row wm clock2 row c2 = Ok c2' /\
    get_dict_state (userId row) c1' = get_dict_state (userId row) c2' /\
    for_user (userId row) (special_offers_recipients c1') =
      for_user (userId row) (special_offers_recipients c2').
Proof.
  intros Hu Hr E.
  destruct (process_row_local wm clock1 clock2 row c1 c2 c1' Hu E)
    as (c2' & new & E2 & _ & H).
  exists c2'. split; [exact E2|].
  destruct H as [(-> & O1 & O2)|(us' & O1 & O2)].
  - apply observable_split in O1, O2. destruct O1 as [S1 R1], O2 as [S2 R2].
    rewrite (get_dict_state_store _ c1' c1 S1),
            (get_dict_state_store _ c2' c2 S2), R1, R2. auto.
  - destruct (observable_insert _ _ _ _ _ O1) as (U1 & _ & R1).
    destruct (observable_insert _ _ _ _ _ O2) as (U2 & _ & R2).
    rewrite U1, U2, R1, R2, !for_user_app, Hr. auto.
Qed.

Lemma process_row_foreign wm clock row c c' u :
  userId row <> u ->
  process_row wm clock row c = Ok c' ->
  get_dict_state u c' = get_dict_state u c /\
  for_user u (special_offers_recipients c') =
    for_user u (special_offers_recipients c).
Proof.
  intros Hne E.
  destruct (process_row_local wm clock clock row c c c' eq_refl E)
    as (c2' & new & E2 & Hnew & H).
  destruct H as [(-> & O1 & _)|(us' & O1 & _)].
  - apply observable_split in O1. destruct O1 as [S1 R1].
    rewrite (get_dict_state_store _ c' c S1), R1. auto.
  - destruct (observable_insert _ _ _ _ _ O1) as (_ & F & R1).
    split.
    + unfold get_dict_state. rewrite F by congruence. reflexivity.
    + rewrite R1, for_user_app, (for_user_other u _ new Hne Hnew).
      apply app_nil_r.
Qed.

Lemma process_dataframe_own wm clock1 clock2 u df : forall c1 c2 c1',
  get_dict_state u c1 = get_dict_state u c2 ->
  for_user u (special_offers_recipients c1) =
    for_user u (special_offers_recipients c2) ->
  process_dataframe wm clock1 df c1 = Ok c1' ->
  exists c2',
    process_dataframe wm clock2 (events_of u df) c2 = Ok c2' /\
    get_dict_state u c2' = get_dict_state u c1' /\
    for_user u (special_offers_recipients c2') =
      for_user u (special_offers_recipients c1').
Proof.
  induction df as [|row df IH]; intros c1 c2 c1' Hu Hr E; cbn in E.
  - injection E as <-. exists c2. cbn. auto.
  - destruct (process_row wm clock1 row c1) as [a1|e] eqn:E1; [|discriminate].
    cbn in E. unfold events_of. rewrite filter_cons. fold (events_of u df).
    destruct (decide (userId row = u)) as [Hrow|Hrow].
    + subst u.
      destruct (process_row_own wm clock1 clock2 row c1 c2 a1 Hu Hr E1)
        as (a2 & E2 & U2 & R2).
      destruct (IH a1 a2 c1' U2 R2 E) as (c2' & E' & H).
      exists c2'. cbn [process_dataframe]. rewrite E2. cbn. auto.
    + destruct (process_row_foreign wm clock1 row c1 a1 u Hrow E1)
        as [U1 R1].
      apply (IH a1 c2 c1'); [congruence|congruence|exact E].
Qed.

(** X12.  What a dataframe does to one user depends on the events of that
    user only: processing just those events, in their order, leaves the
    user with the same dict and the same recipient entries. *)
Theorem other_users_do_not_interfere wm clock1 clock2 u df c c' :
  process_dataframe wm clock1 df c = Ok c' ->
  exists c'',
    process_dataframe wm clock2 (events_of u df) c = Ok c'' /\
    get_dict_state u c'' = get_dict_state u c' /\
    for_user u (special_offers_recipients c'') =
      for_user u (special_offers_recipients c').
Proof.
  intros E.
  exact (process_dataframe_own wm clock1 clock2 u df c c c' eq_refl eq_refl E).
Qed.

(** ** At most one offer per three events *)

Lemma for_user_own u o : for_user u [(u, o)] = [(u, o)].
Proof.
  unfold for_user. rewrite filter_cons. cbn.
  destruct (decide (u = u)); [reflexivity|congruence].
Qed.

Lemma process_row_potential wm clock row c c' u :
  store_shape wm c ->
  process_row wm clock row c = Ok c' ->
  (3 * length (for_user u (special_offers_recipients c'))
   + length (rest_rows (get_dict_state u c'))
   <= 3 * length (for_user u (special_offers_recipients c))
      + length (rest_rows (get_dict_state u c))
      + length (events_of u [row]))%nat.
Proof.
  intros Hc E. unfold events_of. rewrite filter_cons. cbn [filter].
  destruct (decide (userId row = u)) as [Hu|Hu].
  2:{ destruct (process_row_foreign wm clock row c c' u Hu E) as [-> ->].
      cbn. lia. }
  subst u.
  destruct (process_row_step wm clock row c c' E)
    as [(_ & O & _)|(g & a & Hg & Ha & H)].
  { apply observable_split in O. destruct O as [S R].
    rewrite (get_dict_state_store _ c' c S), R. cbn. lia. }
  cbn zeta in H.
  pose proof (session_shape_view wm (userId row) c g Hc) as Hv.
  destruct H as [(_ & O & _)|(_ & rules & m & Hd & Hm & H)].
  { destruct (observable_insert _ _ _ _ _ O) as (U & _ & R).
    rewrite U, R. cbn. lia. }
  destruct m as [t|].
  2:{ destruct H as [O _].
      destruct (observable_insert _ _ _ _ _ O) as (U & _ & R).
      rewrite U, R. cbn. lia. }
  destruct (String.eqb (next_state t) "offer") eqn:Eo; destruct H as [O _];
    destruct (observable_insert _ _ _ _ _ O) as (U & _ & R); rewrite U, R.
  - apply String.eqb_eq in Eo.
    destruct (matched_transition_fired _ _ _ _ _ Hm) as [Hin Hgd].
    destruct (fired_rule_inv wm _ rules t row _ _ Hd Hin Hgd) as [_ Hcase].
    assert (Hlen : (2 <= length (rest_rows (get_dict_state (userId row) c)))%nat).
    { destruct Hcase
        as [(_ & Hn & _)|[(_ & Hn & _)|[(_ & Hn & _)|
            [(Hs & _ & _ & r0 & rs & Hrs & _)|(_ & Hn & _)]]]];
        try (rewrite Eo in Hn; discriminate Hn).
      destruct Hv as (o' & st' & rs' & [= _ <- <-] & _ & _ & _ & Hsh).
      rewrite Hrs in Hsh |- *.
      destruct Hsh as (_ & _ & _ & lst & _ & [(Hst & _)|(_ & _ & Hl)]);
        [rewrite Hs in Hst; discriminate Hst|exact Hl]. }
    rewrite for_user_app, for_user_own, length_app. cbn. lia.
  - cbn. rewrite length_app. cbn. lia.
Qed.

Lemma process_dataframe_potential wm clock u df : forall c c',
  store_shape wm c ->
  process_dataframe wm clock df c = Ok c' ->
  (3 * length (for_user u (special_offers_recipients c'))
   + length (rest_rows (get_dict_state u c'))
   <= 3 * length (for_user u (special_offers_recipients c))
      + length (rest_rows (get_dict_state u c))
      + length (events_of u df))%nat.
Proof.
  induction df as [|row df IH]; intros c c' Hc E; cbn in E.
  - injection E as <-. cbn. lia.
  - destruct (process_row wm clock row c) as [c1|e] eqn:E1; [|discriminate].
    cbn in E.
    pose proof (process_row_potential wm clock row c c1 u Hc E1) as H1.
    pose proof (IH c1 c' (process_row_shape wm clock row c c1 Hc E1) E) as H2.
    change (row :: df) with ([row] ++ df).
    unfold events_of in *. rewrite filter_app, length_app. lia.
Qed.

(** X13.  From a reachable configuration, three times the number of
    recipient entries of a user plus the number of its rows grows by at
    most one per event of that user; so a user without rows gets at most
    one new entry per three of its events. *)
Theorem one_offer_per_three_events wm clock u df c c' :
  reachable wm clock c ->
  process_dataframe wm clock df c = Ok c' ->
  (3 * length (for_user u (special_offers_recipients c'))
   + length (rest_rows (get_dict_state u c'))
   <= 3 * length (for_user u (special_offers_recipients c))
      + length (rest_rows (get_dict_state u c))
      + length (events_of u df))%nat /\
  (rest_rows (get_dict_state u c) = [] ->
   (3 * length (for_user u (special_offers_recipients c'))
    <= 3 * length (for_user u (special_offers_recipients c))
       + length (events_of u df))%nat).
Proof.
  intros Hc E.
  pose proof (process_dataframe_potential wm clock u df c c'
                (reachable_store_shape wm clock c Hc) E) as H.
  split; [exact H|]. intros Hrs. rewrite Hrs in H. cbn in H. lia.
Qed.

(** ** The automaton, state by state *)

Lemma is_page_refresh_false_intro row o st rs :
  (forall lst, last rs = Some lst -> productId lst <> productId row) ->
  is_page_refresh row (mkState o st (Some rs)) = Ok false.
Proof.
  intros H. destruct rs as [|r rs]; [reflexivity|].
  destruct (last_is_Some r rs) as [lst Hl].
  erewrite is_page_refresh_last by exact Hl.
  f_equal. apply String.eqb_neq, H, Hl.
Qed.

Lemma process_row_outcome wm clock row c g a st rs rules m :
  gender row = Some g -> age row = Some a ->
  rest_state (get_dict_state (userId row) c) = st ->
  rest_rows (get_dict_state (userId row) c) = rs ->
  (forall lst, last rs = Some lst -> productId lst <> productId row) ->
  dict_get transitions st = Ok rules ->
  matched_transition wm rules row
    (mkState (Some (offer_for g)) (Some st) (Some rs)) = Ok m ->
  exists c', process_row wm clock row c = Ok c' /\
    match m with
    | None =>
        get_dict_state (userId row) c' = reset_state (offer_for g) /\
        special_offers_recipients c' = special_offers_recipients c
    | Some t =>
        if String.eqb (next_state t) "offer" then
          get_dict_state (userId row) c' = reset_state (offer_for g) /\
          special_offers_recipients c' =
            special_offers_recipients c ++ [(userId row, offer_for g)]
        else
          get_dict_state (userId row) c' =
            mkState (Some (offer_for g)) (Some (next_state t))
                    (Some (rs ++ [row])) /\
          special_offers_recipients c' = special_offers_recipients c
    end.
Proof.
  intros Hg Ha Hst Hrs Hlast Hd Hm. subst st rs.
  destruct (process_row_automaton wm clock row c g a rules m Hg Ha)
    as (c' & E & O).
  - rewrite initialize_state_shape.
    apply is_page_refresh_false_intro, Hlast.
  - exact Hd.
  - rewrite initialize_state_shape. exact Hm.
  - exists c'. split; [exact E|].
    destruct m as [t|];
      [destruct (String.eqb (next_state t) "offer")|];
      destruct (observable_insert _ _ _ _ _ O) as (U & _ & R); auto.
Qed.

(** X14.  For a user in [init] without rows, an event with gender and age
    opens a session exactly when it is a clothing view by a male aged 35 to
    45 or a female aged 25 to 35, whatever the window; any other event
    leaves the user in [init] without rows.  No recipient is added. *)
Theorem first_event_gate wm clock row c g a :
  gender row = Some g -> age row = Some a ->
  rest_state (get_dict_state (userId row) c) = "init" ->
  rest_rows (get_dict_state (userId row) c) = [] ->
  exists c', process_row wm clock row c = Ok c' /\
    special_offers_recipients c' = special_offers_recipients c /\
    ((category row = "clothing" /\ qualifies row /\
      get_dict_state (userId row) c' =
        mkState (Some (offer_for g)) (Some "clothes_visited") (Some [row])) \/
     (~ (category row = "clothing" /\ qualifies row) /\
      get_dict_state (userId row) c' = reset_state (offer_for g))).
Proof.
  intros Hg Ha Hst Hrs.
  set (us := mkState (Some (offer_for g)) (Some "init") (Some [])).
  destruct (condition init_to_clothes row us) as [[|]|e] eqn:Hc.
  - destruct (process_row_outcome wm clock row c g a "init" []
                [init_to_clothes] (Some init_to_clothes) Hg Ha Hst Hrs)
      as (c' & E & U & R); [discriminate|reflexivity| |].
    { cbn [matched_transition]. unfold guard. fold us. rewrite Hc.
      reflexivity. }
    exists c'. split; [exact E|]. split; [exact R|]. left.
    apply init_condition_true in Hc. tauto.
  - destruct (process_row_outcome wm clock row c g a "init" []
                [init_to_clothes] None Hg Ha Hst Hrs)
      as (c' & E & U & R); [discriminate|reflexivity| |].
    { cbn [matched_transition]. unfold guard. fold us. rewrite Hc.
      reflexivity. }
    exists c'. split; [exact E|]. split; [exact R|]. right.
    split; [|exact U]. intros H. apply (init_condition_true row us) in H.
    congruence.
  - exfalso.
    destruct (guard_total_init wm row (offer_for g) [] g a Hg Ha) as [b Hb].
    unfold guard in Hb. fold us in Hb. rewrite Hc in Hb. discriminate.
Qed.

(** X15.  For a user in [clothes_visited], an event with gender and age
    that is no refresh and lies inside the window moves the user to
    [shoes_visited] if it is a shoes view and keeps [clothes_visited] if it
    is a clothing view, and is appended to the rows; gender and age are not
    tested again.  Any other such event resets the user.  No recipient is
    added. *)
Theorem clothes_visited_step wm clock row c g a r0 rs :
  gender row = Some g -> age row = Some a ->
  rest_state (get_dict_state (userId row) c) = "clothes_visited" ->
  rest_rows (get_dict_state (userId row) c) = r0 :: rs ->
  (forall lst, last (r0 :: rs) = Some lst ->
               productId lst <> productId row) ->
  exists c', process_row wm clock row c = Ok c' /\
    special_offers_recipients c' = special_offers_recipients c /\
    ((timestamp row - timestamp r0 < window_ns wm /\
      category row = "shoes" /\
      get_dict_state (userId row) c' =
        mkState (Some (offer_for g)) (Some "shoes_visited")
                (Some ((r0 :: rs) ++ [row]))) \/
     (timestamp row - timestamp r0 < window_ns wm /\
      category row = "clothing" /\
      get_dict_state (userId row) c' =
        mkState (Some (offer_for g)) (Some "clothes_visited")
                (Some ((r0 :: rs) ++ [row]))) \/
     (~ (timestamp row - timestamp r0 < window_ns wm /\
         (category row = "shoes" \/ category row = "clothing")) /\
      get_dict_state (userId row) c' = reset_state (offer_for g))).
Proof.
  intros Hg Ha Hst Hrs Hlast.
  set (us := mkState (Some (offer_for g)) (Some "clothes_visited")
                     (Some (r0 :: rs))).
  assert (Hm : matched_transition wm [clothes_to_shoes; clothes_to_clothes]
                 row us =
               Ok (if timestamp row - timestamp r0 <? window_ns wm then
                     if String.eqb (category row) "shoes"
                     then Some clothes_to_shoes
                     else if String.eqb (category row) "clothing"
                          then Some clothes_to_clothes else None
                   else None)).
  { cbn [matched_transition]. unfold guard, us.
    rewrite check_time_elapsed_cons. cbn. unfold category_is.
    destruct (String.eqb (category row) "shoes"),
             (String.eqb (category row) "clothing"),
             (timestamp row - timestamp r0 <? window_ns wm); reflexivity. }
  destruct (process_row_outcome wm clock row c g a "clothes_visited"
              (r0 :: rs) [clothes_to_shoes; clothes_to_clothes] _
              Hg Ha Hst Hrs Hlast eq_refl Hm) as (c' & E & H).
  exists c'. split; [exact E|].
  destruct (timestamp row - timestamp r0 <? window_ns wm) eqn:Ew.
  - apply Z.ltb_lt in Ew.
    destruct (String.eqb (category row) "shoes") eqn:Es.
    + apply String.eqb_eq in Es. cbn in H. destruct H as [U R].
      split; [exact R|]. left. auto.
    + destruct (String.eqb (category row) "clothing") eqn:Ec.
      * apply String.eqb_eq in Ec. cbn in H. destruct H as [U R].
        split; [exact R|]. right; left. auto.
      * apply String.eqb_neq in Es, Ec. destruct H as [U R].
        split; [exact R|]. right; right. split; [|exact U]. tauto.
  - apply Z.ltb_ge in Ew. destruct H as [U R].
    split; [exact R|]. right; right. split; [|exact U]. lia.
Qed.

(** X16.  For a user in [shoes_visited], an event with gender and age that
    is no refresh, is a clothing view and lies inside the window resolves
    the offer if its product differs from that of the first row, and goes
    back to [clothes_visited], appended to the rows and without recipient,
    if it is the product of the first row.  Any other such event resets the
    user without recipient. *)
Theorem shoes_visited_step wm clock row c g a r0 rs :
  gender row = Some g -> age row = Some a ->
  rest_state (get_dict_state (userId row) c) = "shoes_visited" ->
  rest_rows (get_dict_state (userId row) c) = r0 :: rs ->
  (forall lst, last (r0 :: rs) = Some lst ->
               productId lst <> productId row) ->
  exists c', process_row wm clock row c = Ok c' /\
    ((category row = "clothing" /\
      timestamp row - timestamp r0 < window_ns wm /\
      productId row <> productId r0 /\
      special_offers_recipients c' =
        special_offers_recipients c ++ [(userId row, offer_for g)] /\
      get_dict_state (userId row) c' = reset_state (offer_for g)) \/
     (category row = "clothing" /\
      timestamp row - timestamp r0 < window_ns wm /\
      productId row = productId r0 /\
      special_offers_recipients c' = special_offers_recipients c /\
      get_dict_state (userId row) c' =
        mkState (Some (offer_for g)) (Some "clothes_visited")
                (Some ((r0 :: rs) ++ [row]))) \/
     (~ (category row = "clothing" /\
         timestamp row - timestamp r0 < window_ns wm) /\
      special_offers_recipients c' = special_offers_recipients c /\
      get_dict_state (userId row) c' = reset_state (offer_for g))).
Proof.
  intros Hg Ha Hst Hrs Hlast.
  set (us := mkState (Some (offer_for g)) (Some "shoes_visited")
                     (Some (r0 :: rs))).
  assert (Hm : matched_transition wm [shoes_to_offer; shoes_to_clothes]
                 row us =
               Ok (if String.eqb (category row) "clothing" then
                     if timestamp row - timestamp r0 <? window_ns wm then
                       if String.eqb (productId row) (productId r0)
                       then Some shoes_to_clothes else Some shoes_to_offer
                     else None
                   else None)).
  { cbn [matched_transition]. unfold guard, us.
    rewrite check_time_elapsed_cons. cbn. unfold category_is.
    destruct (String.eqb (category row) "clothing"),
             (String.eqb (productId row) (productId r0)),
             (timestamp row - timestamp r0 <? window_ns wm); reflexivity. }
  destruct (process_row_outcome wm clock row c g a "shoes_visited"
              (r0 :: rs) [shoes_to_offer; shoes_to_clothes] _
              Hg Ha Hst Hrs Hlast eq_refl Hm) as (c' & E & H).
  exists c'. split; [exact E|].
  destruct (String.eqb (category row) "clothing") eqn:Ec.
  - apply String.eqb_eq in Ec.
    destruct (timestamp row - timestamp r0 <? window_ns wm) eqn:Ew.
    + apply Z.ltb_lt in Ew.
      destruct (String.eqb (productId row) (productId r0)) eqn:Ep.
      * apply String.eqb_eq in Ep. cbn in H. destruct H as [U R].
        right; left. auto.
      * apply String.eqb_neq in Ep. cbn in H. destruct H as [U R].
        left. auto.
    + apply Z.ltb_ge in Ew. destruct H as [U R].
      right; right. split; [lia|]. auto.
  - apply String.eqb_neq in Ec. destruct H as [U R].
    right; right. split; [tauto|]. auto.
Qed.

(** ** A store that does not come from the detector *)

Lemma dict_get_unknown st :
  ~ known_state st -> dict_get transitions st = Raise (KeyError st).
Proof.
  intros H. unfold transitions. cbn [dict_get].
  destruct (String.eqb "init" st) eqn:E1.
  { apply String.eqb_eq in E1. exfalso. apply H. left. auto. }
  destruct (String.eqb "clothes_visited" st) eqn:E2.
  { apply String.eqb_eq in E2. exfalso. apply H. right; left. auto. }
  destruct (String.eqb "shoes_visited" st) eqn:E3; [|reflexivity].
  apply String.eqb_eq in E3. exfalso. apply H. right; right. auto.
Qed.

(** X17.  If the dict of a user holds a state that is no key of the
    transition table ("offer", say), every event of that user with gender
    and age that is no refresh raises [KeyError] with that state. *)
Theorem unknown_state_raises wm clock row c g a st :
  gender row = Some g -> age row = Some a ->
  st_state (get_dict_state (userId row) c) = Some st ->
  ~ known_state st ->
  (forall lst, last (rest_rows (get_dict_state (userId row) c)) = Some lst ->
               productId lst <> productId row) ->
  process_row wm clock row c = Raise (KeyError st).
Proof.
  intros Hg Ha Hst Hk Hlast.
  rewrite (process_row_eligible wm clock row c g a Hg Ha). cbn zeta.
  rewrite initialize_state_shape.
  rewrite (is_page_refresh_false_intro _ _ _ _ Hlast).
  rewrite run_automaton_cases.
  unfold rest_state. rewrite Hst. cbn [default from_option id].
  rewrite (dict_get_unknown st Hk). reflexivity.
Qed.

(** X18.  If the dict of a user holds [shoes_visited] without rows, a
    clothing view of that user with gender and age raises [IndexError]; a
    view of another category does not reach the access to the first row
    and resets the user. *)
Theorem shoes_visited_without_rows wm clock row c g a :
  gender row = Some g -> age row = Some a ->
  st_state (get_dict_state (userId row) c) = Some "shoes_visited" ->
  rest_rows (get_dict_state (userId row) c) = [] ->
  (category row = "clothing" ->
   process_row wm clock row c = Raise IndexError) /\
  (category row <> "clothing" ->
   exists c', process_row wm clock row c = Ok c' /\
     get_dict_state (userId row) c' = reset_state (offer_for g) /\
     special_offers_recipients c' = special_offers_recipients c).
Proof.
  intros Hg Ha Hst Hrs. split.
  - intros Hc.
    rewrite (process_row_eligible wm clock row c g a Hg Ha). cbn zeta.
    rewrite initialize_state_shape, Hrs. unfold rest_state. rewrite Hst.
    cbn [default from_option id]. rewrite is_page_refresh_nil.
    rewrite run_automaton_cases. cbn [dict_get transitions].
    cbn. unfold guard. cbn. unfold category_is. rewrite Hc. reflexivity.
  - intros Hc. apply String.eqb_neq in Hc.
    destruct (process_row_outcome wm clock row c g a "shoes_visited" []
                [shoes_to_offer; shoes_to_clothes] None Hg Ha)
      as (c' & E & U & R); try reflexivity; try discriminate.
    + unfold rest_state. rewrite Hst. reflexivity.
    + exact Hrs.
    + cbn. unfold category_is. rewrite Hc. reflexivity.
    + exists c'. auto.
Qed.

(** ** The suffix of the user id in the trace *)

Lemma substring_whole s : forall m,
  (String.length s <= m)%nat -> substring 0 m s = s.
Proof.
  induction s as [|ch s IH]; intros m H.
  - destruct m; reflexivity.
  - destruct m as [|m]; cbn in H; [lia|].
    cbn. rewrite IH by lia. reflexivity.
Qed.

Lemma substring_drop n : forall s m,
  (n + m = String.length s)%nat ->
  exists p, s = String.append p (substring n m s) /\ String.length p = n.
Proof.
  induction n as [|n IH]; intros s m H.
  - exists EmptyString. cbn [String.append]. rewrite substring_whole by lia.
    auto.
  - destruct s as [|ch s]; cbn in H; [lia|].
    destruct (IH s m ltac:(lia)) as (p & Hp & Hl).
    exists (String ch p). split.
    + exact (f_equal (String ch) Hp).
    + cbn [String.length]. now rewrite Hl.
Qed.

Lemma string_length_append p q :
  String.length (String.append p q) = (String.length p + String.length q)%nat.
Proof.
  induction p as [|ch p IH]; [reflexivity|].
  change (S (String.length (String.append p q))
          = S (String.length p + String.length q)).
  now rewrite IH.
Qed.

(** X19.  The suffix written to the trace is the end of the user id: its
    last four characters, or the whole id when that is shorter. *)
Theorem last4_is_suffix s :
  exists p,
    s = String.append p (last4 s) /\
    String.length (last4 s) = Nat.min 4 (String.length s).
Proof.
  unfold last4.
  destruct (Nat.le_gt_cases (String.length s) 4) as [H|H].
  - replace (String.length s - 4)%nat with 0%nat by lia.
    rewrite substring_whole by exact H.
    exists EmptyString. split; [reflexivity|lia].
  - destruct (substring_drop (String.length s - 4) s 4 ltac:(lia))
      as (p & Hp & Hl).
    exists p. split; [exact Hp|].
    apply (f_equal String.length) in Hp.
    rewrite string_length_append, Hl in Hp. lia.
Qed.

(** * The further properties on concrete runs *)

Lemma scenario_prefix_run :
  process_dataframe 30 still_clock [view_clothes; view_shoes] initial_cfg
  = Ok (run_from initial_cfg [view_clothes; view_shoes]).
Proof. vm_compute. reflexivity. Qed.

Lemma scenario_prefix_reachable :
  reachable 30 still_clock (run_from initial_cfg [view_clothes; view_shoes]).
Proof.
  exact (reach_frame 30 still_clock _ _ _ (reach_start 30 still_clock)
           scenario_prefix_run).
Qed.

Lemma scenario_prefix_rows :
  rest_rows (get_dict_state "u1"
               (run_from initial_cfg [view_clothes; view_shoes]))
  = [view_clothes; view_shoes].
Proof. vm_compute. reflexivity. Qed.


Lemma rows_within_window_of_first_witness :
  Forall (fun r => timestamp r - timestamp view_clothes < window_ns 30)
         [view_shoes].
Proof.
  exact (rows_within_window_of_first 30 still_clock _ "u1" view_clothes
           [view_shoes] scenario_prefix_reachable scenario_prefix_rows).
Defined.

Lemma rows_never_repeat_product_witness :
  no_stutter (rest_rows (get_dict_state "u1"
                (run_from initial_cfg [view_clothes; view_shoes]))).
Proof.
  exact (rows_never_repeat_product 30 still_clock _ "u1"
           scenario_prefix_reachable).
Defined.

Lemma first_row_is_qualifying_clothing_witness :
  category view_clothes = "clothing" /\ qualifies view_clothes.
Proof.
  exact (first_row_is_qualifying_clothing 30 still_clock _ "u1" view_clothes
           [view_shoes] scenario_prefix_reachable scenario_prefix_rows).
Defined.

Lemma state_follows_last_row_witness :
  (rest_state (get_dict_state "u1"
                 (run_from initial_cfg [view_clothes; view_shoes]))
     = "clothes_visited" /\ category view_shoes = "clothing") \/
  (rest_state (get_dict_state "u1"
                 (run_from initial_cfg [view_clothes; view_shoes]))
     = "shoes_visited" /\ category view_shoes = "shoes" /\
   (2 <= length (rest_rows (get_dict_state "u1"
                   (run_from initial_cfg [view_clothes; view_shoes]))))%nat).
Proof.
  apply (state_follows_last_row 30 still_clock _ "u1" view_shoes
           scenario_prefix_reachable).
  vm_compute. reflexivity.
Defined.

Lemma offer_step_run :
  process_row 30 still_clock view_other_clothes shoes_cfg
  = Ok (run_from shoes_cfg [view_other_clothes]).
Proof. vm_compute. reflexivity. Qed.

Lemma rows_kept_extended_or_cleared_witness :
  rest_rows (get_dict_state "u1" (run_from shoes_cfg [view_other_clothes]))
    = rest_rows (get_dict_state "u1" shoes_cfg) \/
  rest_rows (get_dict_state "u1" (run_from shoes_cfg [view_other_clothes]))
    = rest_rows (get_dict_state "u1" shoes_cfg) ++ [view_other_clothes] \/
  rest_rows (get_dict_state "u1" (run_from shoes_cfg [view_other_clothes]))
    = [].
Proof.
  exact (proj2 (rows_kept_extended_or_cleared 30 still_clock
                  view_other_clothes shoes_cfg _ offer_step_run)).
Defined.


Lemma scenario_run :
  process_dataframe 30 still_clock
    [view_clothes; view_shoes; view_other_clothes] initial_cfg
  = Ok (run_from initial_cfg [view_clothes; view_shoes; view_other_clothes]).
Proof. vm_compute. reflexivity. Qed.

Lemma recipients_only_appended_witness :
  exists new,
    special_offers_recipients
      (run_from initial_cfg [view_clothes; view_shoes; view_other_clothes])
      = special_offers_recipients initial_cfg ++ new /\
    (length new <= 3)%nat.
Proof.
  destruct (recipients_only_appended 30 still_clock _ initial_cfg _
              scenario_run) as (new & R & L & _).
  exists new. auto.
Defined.

Lemma triggers_match_recipients_witness :
  exists new,
    special_offers_recipients
      (run_from initial_cfg [view_clothes; view_shoes; view_other_clothes])
      = special_offers_recipients initial_cfg ++ new /\
    triggers (trace (run_from initial_cfg
                       [view_clothes; view_shoes; view_other_clothes]))
      = triggers (trace initial_cfg) ++ map (fun e => (last4 e.1, e.2)) new.
Proof.
  exact (triggers_match_recipients 30 still_clock _ initial_cfg _
           scenario_run).
Defined.


Lemma two_users_run :
  process_dataframe 30 still_clock two_users_df initial_cfg
  = Ok (run_from initial_cfg two_users_df).
Proof. vm_compute. reflexivity. Qed.

Lemma other_users_do_not_interfere_witness :
  exists c'',
    process_dataframe 30 Z.of_nat
      [view_clothes; view_shoes; view_other_clothes] initial_cfg = Ok c'' /\
    get_dict_state "u1" c'' =
      get_dict_state "u1" (run_from initial_cfg two_users_df) /\
    for_user "u1" (special_offers_recipients c'') =
      for_user "u1"
        (special_offers_recipients (run_from initial_cfg two_users_df)).
Proof.
  exact (other_users_do_not_interfere 30 still_clock Z.of_nat "u1"
           two_users_df initial_cfg _ two_users_run).
Defined.

Lemma one_offer_per_three_events_witness :
  (3 * length (for_user "u1"
                 (special_offers_recipients
                    (run_from initial_cfg two_users_df)))
   <= 3 * length (for_user "u1" (special_offers_recipients initial_cfg))
      + length (events_of "u1" two_users_df))%nat.
Proof.
  apply (proj2 (one_offer_per_three_events 30 still_clock "u1" two_users_df
                  initial_cfg _ (reach_start 30 still_clock) two_users_run)).
  reflexivity.
Defined.

Lemma first_event_gate_witness :
  exists c',
    process_row 30 still_clock view_clothes initial_cfg = Ok c' /\
    special_offers_recipients c' = [] /\
    ((category view_clothes = "clothing" /\ qualifies view_clothes /\
      get_dict_state "u1" c' =
        mkState (Some "offer1") (Some "clothes_visited")
                (Some [view_clothes])) \/
     (~ (category view_clothes = "clothing" /\ qualifies view_clothes) /\
      get_dict_state "u1" c' = reset_state "offer1")).
Proof.
  apply (first_event_gate 30 still_clock view_clothes initial_cfg "M" 40);
    reflexivity.
Defined.

Lemma clothes_visited_step_witness :
  exists c',
    process_row 30 still_clock view_shoes
      (run_from initial_cfg [view_clothes]) = Ok c' /\
    special_offers_recipients c' =
      special_offers_recipients (run_from initial_cfg [view_clothes]).
Proof.
  destruct (clothes_visited_step 30 still_clock view_shoes
              (run_from initial_cfg [view_clothes]) "M" 40 view_clothes [])
    as (c' & E & R & _).
  - reflexivity.
  - reflexivity.
  - vm_compute. reflexivity.
  - vm_compute. reflexivity.
  - intros lst [= <-]. discriminate.
  - exists c'. auto.
Defined.

Lemma shoes_visited_step_witness :
  exists c',
    process_row 30 still_clock view_other_clothes shoes_cfg = Ok c' /\
    (special_offers_recipients c' = [("u1", "offer1")] \/
     special_offers_recipients c' = []).
Proof.
  destruct (shoes_visited_step 30 still_clock view_other_clothes shoes_cfg
              "M" 40 view_clothes [view_shoes])
    as (c' & E & H).
  - reflexivity.
  - reflexivity.
  - vm_compute. reflexivity.
  - vm_compute. reflexivity.
  - intros lst [= <-]. discriminate.
  - exists c'. split; [exact E|].
    destruct H as [(_ & _ & _ & R & _)|[(_ & _ & _ & R & _)|(_ & R & _)]];
      [left|right|right]; exact R.
Defined.

Lemma unknown_state_raises_witness :
  process_row 30 still_clock view_clothes offer_state_cfg
  = Raise (KeyError "offer").
Proof.
  apply (unknown_state_raises 30 still_clock view_clothes offer_state_cfg
           "M" 40 "offer").
  - reflexivity.
  - reflexivity.
  - vm_compute. reflexivity.
  - intros [H|[H|H]]; discriminate H.
  - intros lst H. vm_compute in H. discriminate H.
Defined.

Lemma shoes_visited_without_rows_witness :
  process_row 30 still_clock view_other_clothes rowless_shoes_cfg
    = Raise IndexError /\
  exists c',
    process_row 30 still_clock view_shoes rowless_shoes_cfg = Ok c' /\
    get_dict_state "u1" c' = reset_state "offer1".
Proof.
  split.
  - apply (proj1 (shoes_visited_without_rows 30 still_clock
                    view_other_clothes rowless_shoes_cfg "M" 40
                    eq_refl eq_refl eq_refl eq_refl)).
    reflexivity.
  - destruct (proj2 (shoes_visited_without_rows 30 still_clock
                       view_shoes rowless_shoes_cfg "M" 40
                       eq_refl eq_refl eq_refl eq_refl))
      as (c' & E & U & _).
    + discriminate.
    + exists c'. auto.
Defined.
